(** * WeatherWave/server.py: the request router of the weather application

    The program is one request handler, [WeatherHandler], a subclass of the
    standard library's [http.server.SimpleHTTPRequestHandler] that overrides
    [do_GET], and a [main] that serves it on port 5000.

    The development embeds the handler as a state-and-exception monad over the
    process state (environment, file system) and the handler object (request
    line, header buffer, output stream), and [main] as an interaction tree.
    Python values are modelled as the interpreter has them: a [str] is a
    sequence of code points, [bytes] a sequence of octets, [os.environ] a
    finite map from [str] to [str].

    The standard library is the boundary of the model.  What server.py calls
    in it is given by its documented behaviour: [urlparse] and [str.encode]
    in full, exceptions included; the calls on the handler object by what
    they add to the header buffer and the output stream; the base class
    [SimpleHTTPRequestHandler] as a parameter. *)

From Stdlib Require Import ZArith NArith String Ascii DecimalString List Bool Lia.
From ITree Require Import ITree ITreeFacts.
From Paco Require Import paco.
From stdpp Require Import base option list gmap.



(* ===================================================================== *)
(** * Part I: definitions *)
(* ===================================================================== *)

(** ** Python [str]: sequences of code points *)

Module Str.

(** A [str] is a sequence of code points [0 .. 0x10FFFF]; lone surrogates
    [0xD800 .. 0xDFFF] are code points too (they arise, for instance, when
    [os.environ] decodes undecodable bytes with [surrogateescape]). *)
Abbreviation pystr := (list N) (only parsing).

(** A source literal (all literals of server.py are ASCII). *)
Definition lit (s : string) : pystr :=
  List.map N_of_ascii (list_ascii_of_string s).

Definition chr (a : ascii) : N := N_of_ascii a.

(** [a == b] *)
Definition eqb (a b : pystr) : bool := bool_decide (a = b).

(** [c in s] for a one-character [c] *)
Definition contains (c : N) (s : pystr) : bool := existsb (N.eqb c) s.

Definition len (s : pystr) : Z := Z.of_nat (length s).

(** Position of the first [c], if any. *)
Fixpoint index (c : N) (s : pystr) : option nat :=
  match s with
  | [] => None
  | x :: s' => if (x =? c)%N then Some O else S <$> index c s'
  end.

(** [s.find(c, start)] for [0 <= start]: the lowest index [>= start] where
    [c] occurs, [-1] when there is none. *)
Definition find_from (c : N) (start : Z) (s : pystr) : Z :=
  match index c (drop (Z.to_nat start) s) with
  | Some i => start + Z.of_nat i
  | None => -1
  end.

(** [s.find(c)] *)
Definition find (c : N) (s : pystr) : Z := find_from c 0 s.

(** [s.rfind(c)]: the highest index where [c] occurs, [-1] when none. *)
Definition rfind (c : N) (s : pystr) : Z :=
  match index c (rev s) with
  | Some i => len s - 1 - Z.of_nat i
  | None => -1
  end.

(** A slice bound as Python clamps it: negative bounds count from the end. *)
Definition bound (i : Z) (s : pystr) : nat :=
  if (i <? 0)%Z then Z.to_nat (len s + i) else Z.to_nat i.

(** [s[:i]] *)
Definition upto (i : Z) (s : pystr) : pystr := take (bound i s) s.

(** [s[i:]] *)
Definition from (i : Z) (s : pystr) : pystr := drop (bound i s) s.

(** [s[i:j]] *)
Definition slice (i j : Z) (s : pystr) : pystr :=
  drop (bound i s) (take (bound j s) s).

(** [s.split(c, 1)] when [c in s]: the text before and after the first [c]. *)
Definition split1 (c : N) (s : pystr) : pystr * pystr :=
  let i := find c s in (upto i s, from (i + 1) s).

(** [s.lstrip(chars)], [chars] given as a predicate. *)
Fixpoint lstrip (strip : N -> bool) (s : pystr) : pystr :=
  match s with
  | c :: s' => if strip c then lstrip strip s' else s
  | [] => []
  end.

(** [s.replace(c, "")] *)
Definition remove (c : N) (s : pystr) : pystr :=
  filter (fun x => x ≠ c) s.

Definition isascii (c : N) : bool := (c <? 0x80)%N.

Definition isupper (c : N) : bool := (0x41 <=? c)%N && (c <=? 0x5A)%N.
Definition islower (c : N) : bool := (0x61 <=? c)%N && (c <=? 0x7A)%N.
Definition isdigit (c : N) : bool := (0x30 <=? c)%N && (c <=? 0x39)%N.

(** [c.isalpha()] on an ASCII [c] *)
Definition isalpha (c : N) : bool := isupper c || islower c.

(** [s.lower()] on ASCII letters; other characters of the texts compared
    here (header names, URL schemes) are left as they are. *)
Definition lower_char (c : N) : N := if isupper c then (c + 0x20)%N else c.
Definition lower (s : pystr) : pystr := List.map lower_char s.

(** Where a text is cut: position [n] is its end, or holds one of the
    characters [seps]. *)
Definition cut_at (seps : list N) (n : nat) (s : pystr) : Prop :=
  length s <= n \/ exists c, s !! n = Some c /\ c ∈ seps.

(** [str(n)] for an [int]. *)
Definition of_int (n : Z) : pystr :=
  lit (NilZero.string_of_int (Z.to_int n)).

End Str.

Import Str.
Arguments Str.lit _%_string.
Arguments Str.chr _%_char.

(** ** [str.encode('utf-8')] *)

Module Utf8.

Definition is_surrogate (c : N) : bool := (0xD800 <=? c)%N && (c <=? 0xDFFF)%N.

(** The octets of one code point; [None] where the strict error handler
    raises [UnicodeEncodeError] (surrogates are not allowed). *)
Definition encode_char (c : N) : option (list N) :=
  if (c <? 0x80)%N then
    Some [c]
  else if (c <? 0x800)%N then
    Some [N.lor 0xC0 (N.shiftr c 6);
          N.lor 0x80 (N.land c 0x3F)]
  else if is_surrogate c then
    None
  else if (c <? 0x10000)%N then
    Some [N.lor 0xE0 (N.shiftr c 12);
          N.lor 0x80 (N.land (N.shiftr c 6) 0x3F);
          N.lor 0x80 (N.land c 0x3F)]
  else if (c <=? 0x10FFFF)%N then
    Some [N.lor 0xF0 (N.shiftr c 18);
          N.lor 0x80 (N.land (N.shiftr c 12) 0x3F);
          N.lor 0x80 (N.land (N.shiftr c 6) 0x3F);
          N.lor 0x80 (N.land c 0x3F)]
  else
    None.

Fixpoint encode (s : pystr) : option (list N) :=
  match s with
  | [] => Some []
  | c :: s' =>
      match encode_char c, encode s' with
      | Some b, Some bs => Some (b ++ bs)
      | _, _ => None
      end
  end.

(** Text that the codec accepts: Unicode scalar values only. *)
Definition scalar (c : N) : bool := (c <=? 0x10FFFF)%N && negb (is_surrogate c).
Definition encodable (s : pystr) : bool := forallb scalar s.

Definition continuation (b : N) : bool := (N.land b 0xC0 =? 0x80)%N.

(** [bytes.decode('utf-8')], strict: shortest forms only, no surrogates,
    nothing above [0x10FFFF].  Used to check [encode] against the format. *)
Fixpoint decode (bs : list N) : option pystr :=
  match bs with
  | [] => Some []
  | b0 :: r0 =>
      if (b0 <? 0x80)%N then cons b0 <$> decode r0
      else if (b0 <? 0xC2)%N then None
      else match r0 with
      | [] => None
      | b1 :: r1 =>
        if negb (continuation b1) then None
        else if (b0 <? 0xE0)%N then
          cons (N.lor (N.shiftl (N.land b0 0x1F) 6) (N.land b1 0x3F)) <$> decode r1
        else match r1 with
        | [] => None
        | b2 :: r2 =>
          if negb (continuation b2) then None
          else if (b0 <? 0xF0)%N then
            let c := N.lor (N.shiftl (N.land b0 0x0F) 12)
                       (N.lor (N.shiftl (N.land b1 0x3F) 6) (N.land b2 0x3F)) in
            if (c <? 0x800)%N || is_surrogate c then None
            else cons c <$> decode r2
          else match r2 with
          | [] => None
          | b3 :: r3 =>
            if negb (continuation b3) then None
            else if (b0 <? 0xF5)%N then
              let c := N.lor (N.shiftl (N.land b0 0x07) 18)
                         (N.lor (N.shiftl (N.land b1 0x3F) 12)
                            (N.lor (N.shiftl (N.land b2 0x3F) 6) (N.land b3 0x3F))) in
              if (c <? 0x10000)%N || (0x10FFFF <? c)%N then None
              else cons c <$> decode r3
            else None
          end
        end
      end
  end.

End Utf8.


(** ** Exceptions *)

Inductive Exn : Type :=
| ValueError
| UnicodeEncodeError
| AttributeError.

(** The result of a call: a value, or a raised exception. *)
Inductive Result (A : Type) : Type :=
| Ok (a : A)
| Raise (e : Exn).
Arguments Ok {A} a.
Arguments Raise {A} e.

#[global] Instance Result_ret : MRet Result := @Ok.
#[global] Instance Result_bind : MBind Result := fun A B f r =>
  match r with
  | Ok a => f a
  | Raise e => Raise e
  end.

(** ** [urllib.parse.urlparse], as CPython 3.11 has it *)

Module Url.

(** The two netloc checks of urllib that need the [ipaddress], [re] and
    [unicodedata] modules are taken as given; [false] stands for the
    [ValueError] they raise. *)
Class Validators : Type := {
  (** [_check_bracketed_netloc(netloc)] *)
  check_bracketed_netloc : pystr -> bool;
  (** the NFKC part of [_checknetloc(netloc)], reached for a netloc that
      is not ASCII *)
  checknetloc_nfkc : pystr -> bool
}.

Record ParseResult : Type := mkParseResult {
  scheme : pystr;
  netloc : pystr;
  path : pystr;
  params : pystr;
  query : pystr;
  fragment : pystr
}.

Definition uses_params : list pystr :=
  [lit ""; lit "ftp"; lit "hdl"; lit "prospero"; lit "http"; lit "imap";
   lit "https"; lit "shttp"; lit "rtsp"; lit "rtspu"; lit "sip"; lit "sips";
   lit "mms"; lit "sftp"; lit "tel"].

(** [c in scheme_chars] *)
Definition scheme_char (c : N) : bool :=
  islower c || isupper c || isdigit c
  || (c =? chr "+")%N || (c =? chr "-")%N || (c =? chr ".")%N.

(** [c in _WHATWG_C0_CONTROL_OR_SPACE] *)
Definition c0_control_or_space (c : N) : bool := (c <=? 0x20)%N.

(** [_UNSAFE_URL_BYTES_TO_REMOVE]: tab, carriage return, line feed *)
Definition unsafe_url_bytes_to_remove : list N := [0x09; 0x0D; 0x0A]%N.

(** [url[0].isascii() and url[0].isalpha()]; the caller has [0 < i], so
    [url] is not empty. *)
Definition starts_with_ascii_letter (url : pystr) : bool :=
  match url with
  | c :: _ => isascii c && isalpha c
  | [] => false
  end.

Definition splitparams (url : pystr) : pystr * pystr :=
  if contains (chr "/") url then
    let i := find_from (chr ";") (rfind (chr "/") url) url in
    if (i <? 0)%Z then (url, lit "")
    else (upto i url, from (i + 1) url)
  else
    let i := find (chr ";") url in
    (upto i url, from (i + 1) url).

Definition splitnetloc (url : pystr) (start : Z) : pystr * pystr :=
  let delim :=
    fold_left
      (fun delim c =>
         let wdelim := find_from c start url in
         if (0 <=? wdelim)%Z then Z.min delim wdelim else delim)
      [chr "/"; chr "?"; chr "#"] (len url) in
  (slice start delim url, from delim url).

(** A request target in origin form, as the request line gives it to
    [self.path]: it begins with one slash, not two, and has no tab, carriage
    return or line feed in it (the request line is split at white space). *)
Definition origin_form (target : pystr) : bool :=
  match target with
  | c :: rest =>
      (c =? chr "/")%N
      && match rest with
         | c' :: _ => negb (c' =? chr "/")%N
         | [] => true
         end
  | [] => false
  end
  && forallb (fun c => negb (existsb (N.eqb c) unsafe_url_bytes_to_remove)) target.

Section Parse.
Context `{Validators}.

Definition checknetloc (netloc : pystr) : bool :=
  if eqb netloc (lit "") || forallb isascii netloc then true
  else checknetloc_nfkc netloc.

(** [urlsplit(url)] with the default [scheme=''] and
    [allow_fragments=True]: [(scheme, netloc, url, query, fragment)]. *)
Definition urlsplit (url : pystr)
  : Result (pystr * pystr * pystr * pystr * pystr) :=
  let url := lstrip c0_control_or_space url in
  let url := fold_left (fun u b => remove b u) unsafe_url_bytes_to_remove url in
  let i := find (chr ":") url in
  let '(scheme, url) :=
    if (0 <? i)%Z && starts_with_ascii_letter url
       && forallb scheme_char (upto i url)
    then (lower (upto i url), from (i + 1) url)
    else (lit "", url) in
  '(netloc, url) ←
    (if eqb (upto 2 url) (lit "//") then
       let '(netloc, url) := splitnetloc url 2 in
       if (contains (chr "[") netloc && negb (contains (chr "]") netloc))
          || (contains (chr "]") netloc && negb (contains (chr "[") netloc))
       then Raise ValueError
       else if contains (chr "[") netloc && contains (chr "]") netloc
               && negb (check_bracketed_netloc netloc)
       then Raise ValueError
       else Ok (netloc, url)
     else Ok (lit "", url));
  let '(url, fragment) :=
    if contains (chr "#") url then split1 (chr "#") url else (url, lit "") in
  let '(url, query) :=
    if contains (chr "?") url then split1 (chr "?") url else (url, lit "") in
  if checknetloc netloc then Ok (scheme, netloc, url, query, fragment)
  else Raise ValueError.

Definition urlparse (url : pystr) : Result ParseResult :=
  '(scheme, netloc, url, query, fragment) ← urlsplit url;
  let '(url, params) :=
    if bool_decide (scheme ∈ uses_params) && contains (chr ";") url
    then splitparams url
    else (url, lit "") in
  Ok (mkParseResult scheme netloc url params query fragment).

End Parse.

End Url.

(** ** [http.server]: the handler object and the calls server.py makes on it

    A reply is kept as the calls build it: a block of header lines, then
    octets.  How the lines are laid out on the wire is below the model.  The
    request's protocol version is part of it: for an HTTP/0.9 request (a
    request line without a version) the library writes no status line and
    no header at all. *)

Module Http.

(** What the handler buffers and sends before the body. *)
Inductive Line : Type :=
| StatusLine (code : Z)
| HeaderLine (keyword value : pystr).

(** What has been written to [self.wfile], in order: a flushed header block,
    or octets written by the handler. *)
Inductive Chunk : Type :=
| Head (lines : list Line)
| Data (octets : list N).

(** The handler object [self], after [parse_request]. *)
Record Handler : Type := mkHandler {
  command : pystr;                 (** [self.command] *)
  path : pystr;                    (** [self.path], the request target *)
  request_version : pystr;         (** [self.request_version] *)
  version_string : pystr;          (** what [self.version_string()] returns *)
  date_time_string : pystr;        (** what [self.date_time_string()] returns *)
  headers_buffer : list Line;      (** [self._headers_buffer] *)
  wfile : list Chunk               (** [self.wfile] *)
}.

(** A request as [parse_request] hands it to the method dispatch: the words
    of the request line and the time of arrival.  For a line without a
    version [parse_request] sets the version to [HTTP/0.9], and passes the
    request on only when the command is [GET]; requests that it answers
    itself (a malformed line, a version from 2.0 on) never get here. *)
Record Request : Type := mkRequest {
  req_command : pystr;
  req_path : pystr;
  req_version : pystr;
  req_date : pystr
}.

Section WithFS.
(** The file system, which only the static-file collaborator looks at. *)
Context {FS : Type}.

(** The state of the process that outlives a request. *)
Record World : Type := mkWorld {
  environ : gmap pystr pystr;    (** [os.environ] *)
  files : FS
}.

Record State : Type := mkState {
  world : World;
  self : Handler
}.

(** Code that runs against the state and returns or raises. *)
Definition M (A : Type) : Type := State -> State * Result A.

#[global] Instance M_ret : MRet M := fun A a st => (st, Ok a).
#[global] Instance M_bind : MBind M := fun A B f m st =>
  match m st with
  | (st', Ok a) => f a st'
  | (st', Raise e) => (st', Raise e)
  end.

Definition raise {A} (e : Exn) : M A := fun st => (st, Raise e).

(** A pure call that may raise. *)
Definition call {A} (r : Result A) : M A := fun st => (st, r).

Definition get_self : M Handler := fun st => (st, Ok (self st)).

Definition get_world : M World := fun st => (st, Ok (world st)).

Definition set_self (h : Handler) : M unit :=
  fun st => (mkState (world st) h, Ok tt).

Definition set_headers_buffer (b : list Line) (h : Handler) : Handler :=
  mkHandler (command h) (path h) (request_version h) (version_string h)
            (date_time_string h) b (wfile h).

Definition set_wfile (w : list Chunk) (h : Handler) : Handler :=
  mkHandler (command h) (path h) (request_version h) (version_string h)
            (date_time_string h) (headers_buffer h) w.

(** [self.request_version != 'HTTP/0.9'], the guard of every call that
    writes a line of the header block. *)
Definition writes_headers (h : Handler) : bool :=
  negb (eqb (request_version h) (lit "HTTP/0.9")).

(** [self.wfile.write(data)] *)
Definition wfile_write (data : list N) : M unit :=
  h ← get_self;
  set_self (set_wfile (wfile h ++ [Data data]) h).

(** [self.send_header(keyword, value)]: one more line in the buffer, unless
    the request is HTTP/0.9.  (What it does besides for the keyword
    [Connection], which server.py never sends, is not part of the model.) *)
Definition send_header (keyword value : pystr) : M unit :=
  h ← get_self;
  if writes_headers h then
    set_self (set_headers_buffer (headers_buffer h ++ [HeaderLine keyword value]) h)
  else mret tt.

(** [self.send_response_only(code)]: the response line into the buffer,
    unless the request is HTTP/0.9. *)
Definition send_response_only (code : Z) : M unit :=
  h ← get_self;
  if writes_headers h then
    set_self (set_headers_buffer (headers_buffer h ++ [StatusLine code]) h)
  else mret tt.

(** [self.send_response(code)]: the response line, then the [Server] and
    [Date] headers.  (The line it also prints to the access log on [stderr]
    is not part of the model.) *)
Definition send_response (code : Z) : M unit :=
  h ← get_self;
  send_response_only code;;
  send_header (lit "Server") (version_string h);;
  send_header (lit "Date") (date_time_string h).

(** [self.end_headers()]: the buffer goes out as one block and is reset,
    unless the request is HTTP/0.9. *)
Definition end_headers : M unit :=
  h ← get_self;
  if writes_headers h then
    set_self (set_headers_buffer []
                (set_wfile (wfile h ++ [Head (headers_buffer h)]) h))
  else mret tt.

(** [os.environ.get(key, default)] *)
Definition environ_get (key fallback : pystr) : M pystr :=
  w ← get_world;
  mret (default fallback (environ w !! key)).

(** [s.encode('utf-8')] *)
Definition encode_utf8 (s : pystr) : M (list N) :=
  match Utf8.encode s with
  | Some octets => mret octets
  | None => raise UnicodeEncodeError
  end.

(** A class as method lookup sees it: the [do_*] attributes by name. *)
Definition ClassDict : Type := pystr -> option (M unit).

(** The part of [http.server] that server.py builds on. *)
Class Library : Type := {
  (** the base class and its [do_*] methods *)
  SimpleHTTPRequestHandler : ClassDict;
  (** [self.send_error(HTTPStatus.NOT_IMPLEMENTED,
      "Unsupported method (%r)" % self.command)] *)
  unsupported_method : pystr -> M unit;
  (** the server software version that [version_string()] reports *)
  server_version : pystr
}.

(** The dispatch of [handle_one_request]: [mname = 'do_' + self.command],
    an error reply when the class has no such attribute, the method
    otherwise. *)
Definition handle_method (cls : ClassDict) `{Library} : M unit :=
  h ← get_self;
  let mname := lit "do_" ++ command h in
  match cls mname with
  | None => unsupported_method (command h)
  | Some method => method
  end.

(** The handler object for a request: nothing buffered, nothing sent. *)
Definition new_handler `{Library} (r : Request) : Handler :=
  mkHandler (req_command r) (req_path r) (req_version r) server_version
            (req_date r) [] [].

End WithFS.

Arguments World : clear implicits.
Arguments State : clear implicits.
Arguments M : clear implicits.
Arguments ClassDict : clear implicits.
Arguments Library : clear implicits.

(** The response as a client reads it off the stream.  A stream that opens
    with a header block is a full response: the status line first, header
    lines after it, and the octets that follow are the body.  A stream
    without a header block is a simple response, as an HTTP/0.9 request gets
    it: no status, no headers, the octets are the body. *)
Record Response : Type := mkResponse {
  status : option Z;
  headers : list (pystr * pystr);
  body : list N
}.

Fixpoint header_fields (ls : list Line) : list (pystr * pystr) :=
  match ls with
  | [] => []
  | HeaderLine k v :: ls' => (k, v) :: header_fields ls'
  | StatusLine _ :: ls' => header_fields ls'
  end.

Fixpoint octets_of (out : list Chunk) : list N :=
  match out with
  | [] => []
  | Data d :: out' => d ++ octets_of out'
  | Head _ :: out' => octets_of out'
  end.

Definition response_of (out : list Chunk) : option Response :=
  match out with
  | Head (StatusLine code :: ls) :: out' =>
      Some (mkResponse (Some code) (header_fields ls) (octets_of out'))
  | Head _ :: _ => None
  | _ => Some (mkResponse None [] (octets_of out))
  end.

(** A header field by name; field names are case-insensitive. *)
Fixpoint get_header (name : pystr) (hs : list (pystr * pystr)) : option pystr :=
  match hs with
  | [] => None
  | (k, v) :: hs' =>
      if eqb (lower k) (lower name) then Some v else get_header name hs'
  end.

End Http.

(** ** Programs that run for ever

    [never_returns t]: whatever the outside answers, [t] goes on from one
    step to the next and has no result.  The greatest such predicate, taken
    with Paco. *)

Inductive runningF {E : Type -> Type} {R : Type} (rec : itree E R -> Prop)
  : itree' E R -> Prop :=
| running_tau (t : itree E R) : rec t -> runningF rec (TauF t)
| running_vis (X : Type) (e : E X) (k : X -> itree E R) :
    (forall x, rec (k x)) -> runningF rec (VisF e k).

Definition running_ {E : Type -> Type} {R : Type} (rec : itree E R -> Prop)
  (t : itree E R) : Prop :=
  runningF rec (observe t).

Definition never_returns {E : Type -> Type} {R : Type} (t : itree E R) : Prop :=
  paco1 running_ bot1 t.

(** ** server.py *)

Import Http.

Section WeatherWave.
Context {FS : Type} `{Url.Validators} `{Library FS}.

(** [super().do_GET()] *)
Definition super_do_GET : M FS unit :=
  match SimpleHTTPRequestHandler (lit "do_GET") with
  | Some method => method
  | None => raise AttributeError
  end.

(** [f"window.RAPIDAPI_KEY = '{api_key}';"] *)
Definition config_content (api_key : pystr) : pystr :=
  lit "window.RAPIDAPI_KEY = '" ++ api_key ++ lit "';".

(** [WeatherHandler.do_GET] *)
Definition do_GET : M FS unit :=
  h ← get_self;
  parsed_path ← call (Url.urlparse (path h));
  if eqb (Url.path parsed_path) (lit "/config.js") then
    send_response 200;;
    send_header (lit "Content-type") (lit "application/javascript");;
    send_header (lit "Cache-Control") (lit "no-cache");;
    end_headers;;
    api_key ← environ_get (lit "RAPIDAPI_KEY") (lit "YOUR_RAPIDAPI_KEY_HERE");
    octets ← encode_utf8 (config_content api_key);
    wfile_write octets
  else
    super_do_GET.

(** [class WeatherHandler(http.server.SimpleHTTPRequestHandler)]: [do_GET]
    is its own, every other attribute is the base class's. *)
Definition WeatherHandler : ClassDict FS :=
  fun name =>
    if eqb name (lit "do_GET") then Some do_GET
    else SimpleHTTPRequestHandler name.

(** Handling request [r] in a process whose state is [w], by a handler
    object of class [cls]: the state it leaves and how its method ended. *)
Definition handle (cls : ClassDict FS) (w : World FS) (r : Request)
  : State FS * Result unit :=
  handle_method cls (mkState w (new_handler r)).

(** What the client receives, the outcome, and the process state left. *)
Definition reply (cls : ClassDict FS) (w : World FS) (r : Request) : list Chunk :=
  wfile (self (fst (handle cls w r))).

Definition outcome (cls : ClassDict FS) (w : World FS) (r : Request) : Result unit :=
  snd (handle cls w r).

Definition world_after (cls : ClassDict FS) (w : World FS) (r : Request) : World FS :=
  world (fst (handle cls w r)).

(** The path component of a request target, when [urlparse] accepts it. *)
Definition path_component (target : pystr) : option pystr :=
  match Url.urlparse target with
  | Ok parsed => Some (Url.path parsed)
  | Raise _ => None
  end.


(** A host name as the absolute form of a request target can have it
    without more ado: ASCII, and none of the characters that end the netloc
    or make [urlparse] look for an IPv6 address. *)
Definition plain_host (host : pystr) : bool :=
  forallb
    (fun c => isascii c
              && negb (existsb (N.eqb c)
                         [chr "/"; chr "?"; chr "#"; chr "["; chr "]"]))
    host.

(** [socketserver.TCPServer(server_address, RequestHandlerClass)] *)
Record TCPServer : Type := mkTCPServer {
  server_address : pystr * Z;
  RequestHandlerClass : ClassDict FS
}.

(** What [main] does to the outside. *)
Variant serverE : Type -> Type :=
| server_bind (httpd : TCPServer) : serverE unit   (** the constructor binds and listens *)
| print (line : pystr) : serverE unit
| get_request : serverE Request                    (** the next request, parsed *)
| send (out : list Chunk) : serverE unit           (** the handler's output goes out *)
| server_close (httpd : TCPServer) : serverE unit. (** leaving the [with] block *)

(** One round of the serving loop: a new handler object for the request,
    the method dispatch, the output to the client.  An exception in the
    handler is reported by the server and does not end the loop. *)
Definition handle_request (httpd : TCPServer) (w : World FS)
  : itree serverE (World FS) :=
  ITree.bind (ITree.trigger get_request) (fun r =>
  let st := fst (handle (RequestHandlerClass httpd) w r) in
  ITree.bind (ITree.trigger (send (wfile (self st)))) (fun _ =>
  Ret (world st))).

(** [httpd.serve_forever()] *)
Definition serve_forever {R : Type} (httpd : TCPServer) (w : World FS)
  : itree serverE R :=
  ITree.iter (fun w => ITree.bind (handle_request httpd w) (fun w' => Ret (inl w'))) w.

Definition PORT : Z := 5000.

(** [main()], started in a process whose state is [w]. *)
Definition main (w : World FS) : itree serverE unit :=
  let httpd := mkTCPServer (lit "", PORT) WeatherHandler in
  ITree.bind (ITree.trigger (server_bind httpd)) (fun _ =>
  ITree.bind (ITree.trigger
                (print (lit "Serving weather app at http://localhost:" ++ of_int PORT)))
             (fun _ =>
  ITree.bind (serve_forever httpd w) (fun _ : unit =>
  ITree.trigger (server_close httpd)))).

End WeatherWave.

(** ** A small static-file collaborator

    Not the standard library's code: a minimal base class that serves files
    the way the specification describes the collaborator (the file's octets
    with status 200, a 404 reply when there is no file), used to run the
    handler on concrete requests. *)

Module Static.

(** Files by request path. *)
Abbreviation Files := (gmap (list N) (list N)) (only parsing).

Definition validators : Url.Validators :=
  {| Url.check_bracketed_netloc := fun _ => true;
     Url.checknetloc_nfkc := fun _ => true |}.

Definition resolve (fs : Files) (target : pystr) : option (list N) :=
  fs !! target.

Definition send_head : M Files (option (list N)) :=
  h ← get_self;
  w ← get_world;
  match resolve (files w) (path h) with
  | Some content =>
      send_response 200;;
      send_header (lit "Content-type") (lit "application/octet-stream");;
      end_headers;;
      mret (Some content)
  | None =>
      send_response 404;; end_headers;; mret None
  end.

Definition do_GET : M Files unit :=
  f ← send_head;
  match f with
  | Some content => wfile_write content
  | None => mret tt
  end.

Definition do_HEAD : M Files unit := send_head;; mret tt.

Definition library : Library Files :=
  {| SimpleHTTPRequestHandler := fun name =>
       if eqb name (lit "do_GET") then Some do_GET
       else if eqb name (lit "do_HEAD") then Some do_HEAD
       else None;
     unsupported_method := fun _ => send_response 501;; end_headers;
     server_version := lit "SimpleHTTP/0.6" |}.

(** A request with the request line [command target HTTP/1.1]. *)
Definition request (command target : string) : Request :=
  mkRequest (lit command) (lit target) (lit "HTTP/1.1")
            (lit "Tue, 03 Nov 2026 09:30:00 GMT").

(** A request with the request line [GET target], without a version. *)
Definition simple_request (target : string) : Request :=
  mkRequest (lit "GET") (lit target) (lit "HTTP/0.9")
            (lit "Tue, 03 Nov 2026 09:30:00 GMT").

(** A process with the given API key (or none) and one file, [/index.html]. *)
Definition world (key : option pystr) : World Files :=
  mkWorld (match key with
           | Some k => {[ lit "RAPIDAPI_KEY" := k ]}
           | None => ∅
           end)
          {[ lit "/index.html" := lit "<html></html>" ]}.

Definition abc123 : World Files := world (Some (lit "abc123")).
Definition unset : World Files := world None.

End Static.

(* ===================================================================== *)
(** * Part II: theorems *)
(* ===================================================================== *)

(** ** The codec: [encode] produces UTF-8 *)

Section Utf8Facts.
Import Utf8.
Local Open Scope N_scope.

Lemma land_shiftl_low x y n : y < 2 ^ n -> N.land (N.shiftl x n) y = 0.
Proof.
  intros Hy. apply N.bits_inj; intros k. rewrite N.land_spec, N.bits_0.
  destruct (N.lt_ge_cases k n) as [Hk|Hk].
  - rewrite N.shiftl_spec_low by assumption. reflexivity.
  - destruct (N.eq_dec y 0) as [->|Hne].
    + rewrite N.bits_0. apply andb_false_r.
    + rewrite (N.bits_above_log2 y k), andb_false_r; [reflexivity|].
      apply N.lt_le_trans with n; [|assumption].
      apply N.log2_lt_pow2; lia.
Qed.

(** Or-ing a shifted field onto lower bits adds them. *)
Lemma lor_shiftl_low x y n : y < 2 ^ n -> N.lor (N.shiftl x n) y = x * 2 ^ n + y.
Proof.
  intros Hy.
  rewrite <- N.lxor_lor, <- N.add_nocarry_lxor, N.shiftl_mul_pow2;
    auto using land_shiftl_low.
Qed.

Lemma lor_tag tag k n x :
  tag = N.shiftl k n -> x < 2 ^ n -> N.lor tag x = tag + x.
Proof.
  intros -> Hx. rewrite lor_shiftl_low, N.shiftl_mul_pow2 by assumption.
  reflexivity.
Qed.

Lemma land_low_bits x m n : m = N.ones n -> N.land x m = x mod 2 ^ n.
Proof. intros ->. apply N.land_ones. Qed.

Ltac divmod := zify; Z.to_euclidean_division_equations; lia.

Lemma shiftr_6 c : N.shiftr c 6 = c / 64.
Proof. apply (N.shiftr_div_pow2 c 6). Qed.
Lemma shiftr_12 c : N.shiftr c 12 = c / 4096.
Proof. apply (N.shiftr_div_pow2 c 12). Qed.
Lemma shiftr_18 c : N.shiftr c 18 = c / 262144.
Proof. apply (N.shiftr_div_pow2 c 18). Qed.
Lemma land_3F x : N.land x 0x3F = x mod 64.
Proof. apply (land_low_bits x _ 6). reflexivity. Qed.

(** A continuation octet [10xxxxxx] and its payload. *)
Lemma trail_octet x :
  let b := N.lor 0x80 (N.land x 0x3F) in
  b = 128 + x mod 64 /\ continuation b = true /\ N.land b 0x3F = x mod 64.
Proof.
  cbv zeta. rewrite land_3F.
  assert (Hlt : x mod 64 < 64) by (apply N.mod_lt; lia).
  assert (Hb : N.lor 0x80 (x mod 64) = 128 + x mod 64).
  { apply (lor_tag _ 1 7); [reflexivity|]. change (2 ^ 7) with 128. lia. }
  rewrite Hb. split; [reflexivity|]. split.
  - unfold continuation. apply N.eqb_eq.
    rewrite <- Hb. change 0x80 with (N.shiftl 2 6) at 1.
    rewrite N.land_lor_distr_l.
    change 0xC0 with (N.shiftl 3 6).
    rewrite (N.land_comm (x mod 64)), (land_shiftl_low 3 (x mod 64) 6)
      by (change (2 ^ 6) with 64; lia).
    rewrite N.lor_0_r. reflexivity.
  - rewrite land_3F. rewrite <- N.Div0.add_mod_idemp_l. change (128 mod 64) with 0.
    rewrite N.add_0_l, N.Div0.mod_mod. reflexivity.
Qed.

Lemma lead_octet tag k n m h :
  tag = N.shiftl k n -> m = N.ones n -> h < 2 ^ n ->
  N.lor tag h = tag + h /\ N.land (N.lor tag h) m = h.
Proof.
  intros Htag -> Hh. split; [eapply lor_tag; eassumption|].
  subst tag. rewrite N.land_lor_distr_l, !N.land_ones.
  rewrite N.shiftl_mul_pow2, N.Div0.mod_mul, N.lor_0_l.
  apply N.mod_small; assumption.
Qed.

(** The decoder's equations, one per sequence length. *)
Ltac by_cases :=
  repeat match goal with
         | |- context [(?a <? ?b)] => destruct (N.ltb_spec a b); try lia
         end.

Lemma decode_1 b0 r : b0 < 0x80 -> decode (b0 :: r) = cons b0 <$> decode r.
Proof. intros. cbn [decode]. by_cases. reflexivity. Qed.

Lemma decode_2 b0 b1 r :
  0xC2 <= b0 < 0xE0 -> continuation b1 = true ->
  decode (b0 :: b1 :: r)
  = cons (N.lor (N.shiftl (N.land b0 0x1F) 6) (N.land b1 0x3F)) <$> decode r.
Proof.
  intros ? C1. remember (b1 :: r) as r0 eqn:E. cbn [decode]. by_cases.
  subst r0. rewrite C1. reflexivity.
Qed.

Lemma decode_3 b0 b1 b2 r :
  0xE0 <= b0 < 0xF0 -> continuation b1 = true -> continuation b2 = true ->
  let c := N.lor (N.shiftl (N.land b0 0x0F) 12)
             (N.lor (N.shiftl (N.land b1 0x3F) 6) (N.land b2 0x3F)) in
  0x800 <= c -> is_surrogate c = false ->
  decode (b0 :: b1 :: b2 :: r) = cons c <$> decode r.
Proof.
  intros ? C1 C2 c Hc Hs. remember (b1 :: b2 :: r) as r0 eqn:E.
  cbn [decode]. by_cases. subst r0. rewrite C1, C2. cbn [negb]. fold c.
  rewrite Hs. by_cases. reflexivity.
Qed.

Lemma decode_4 b0 b1 b2 b3 r :
  0xF0 <= b0 < 0xF5 ->
  continuation b1 = true -> continuation b2 = true -> continuation b3 = true ->
  let c := N.lor (N.shiftl (N.land b0 0x07) 18)
             (N.lor (N.shiftl (N.land b1 0x3F) 12)
                (N.lor (N.shiftl (N.land b2 0x3F) 6) (N.land b3 0x3F))) in
  0x10000 <= c <= 0x10FFFF ->
  decode (b0 :: b1 :: b2 :: b3 :: r) = cons c <$> decode r.
Proof.
  intros ? C1 C2 C3 c Hc. remember (b1 :: b2 :: b3 :: r) as r0 eqn:E.
  cbn [decode]. by_cases. subst r0. rewrite C1, C2, C3. cbn [negb]. fold c.
  by_cases. reflexivity.
Qed.

(** One code point: the decoder reads back what the encoder wrote. *)
Lemma decode_encode_char c b rest :
  encode_char c = Some b -> decode (b ++ rest) = cons c <$> decode rest.
Proof.
  unfold encode_char.
  destruct (N.ltb_spec c 0x80) as [H1|H1].
  { intros [= <-]. apply decode_1. assumption. }
  destruct (N.ltb_spec c 0x800) as [H2|H2].
  { intros [= <-].
    destruct (trail_octet c) as (E1 & C1 & P1).
    destruct (lead_octet 0xC0 6 5 0x1F (N.shiftr c 6)) as (E0 & P0);
      [reflexivity|reflexivity|rewrite shiftr_6; change (2 ^ 5) with 32; divmod|].
    cbn [app]. rewrite decode_2; [|rewrite E0, shiftr_6; divmod|assumption].
    rewrite P0, P1, shiftr_6.
    rewrite lor_shiftl_low by (change (2 ^ 6) with 64; divmod).
    change (2 ^ 6) with 64. do 2 f_equal. divmod. }
  destruct (is_surrogate c) eqn:Hs; [discriminate|].
  destruct (N.ltb_spec c 0x10000) as [H3|H3].
  { intros [= <-].
    destruct (trail_octet c) as (E2 & C2 & P2).
    destruct (trail_octet (N.shiftr c 6)) as (E1 & C1 & P1).
    destruct (lead_octet 0xE0 14 4 0x0F (N.shiftr c 12)) as (E0 & P0);
      [reflexivity|reflexivity|rewrite shiftr_12; change (2 ^ 4) with 16; divmod|].
    assert (Hc : N.lor (N.shiftl (N.shiftr c 12) 12)
                   (N.lor (N.shiftl (N.shiftr c 6 mod 64) 6) (c mod 64)) = c).
    { rewrite (lor_shiftl_low _ (c mod 64)) by (change (2 ^ 6) with 64; divmod).
      rewrite lor_shiftl_low, shiftr_12, shiftr_6;
        change (2 ^ 6) with 64; change (2 ^ 12) with 4096; divmod. }
    cbn [app]. rewrite decode_3; rewrite ?P0, ?P1, ?P2, ?Hc; try assumption.
    - reflexivity.
    - rewrite E0, shiftr_12; divmod. }
  destruct (N.leb_spec c 0x10FFFF) as [H4|H4]; [|discriminate].
  intros [= <-].
  destruct (trail_octet c) as (E3 & C3 & P3).
  destruct (trail_octet (N.shiftr c 6)) as (E2 & C2 & P2).
  destruct (trail_octet (N.shiftr c 12)) as (E1 & C1 & P1).
  destruct (lead_octet 0xF0 30 3 0x07 (N.shiftr c 18)) as (E0 & P0);
    [reflexivity|reflexivity|rewrite shiftr_18; change (2 ^ 3) with 8; divmod|].
  assert (Hc : N.lor (N.shiftl (N.shiftr c 18) 18)
                 (N.lor (N.shiftl (N.shiftr c 12 mod 64) 12)
                    (N.lor (N.shiftl (N.shiftr c 6 mod 64) 6) (c mod 64))) = c).
  { rewrite (lor_shiftl_low _ (c mod 64)) by (change (2 ^ 6) with 64; divmod).
    rewrite (lor_shiftl_low (_ mod 64))
      by (change (2 ^ 6) with 64; change (2 ^ 12) with 4096; divmod).
    rewrite lor_shiftl_low, shiftr_18, shiftr_12, shiftr_6;
      change (2 ^ 6) with 64; change (2 ^ 12) with 4096;
      change (2 ^ 18) with 262144; divmod. }
  cbn [app]. rewrite decode_4; rewrite ?P0, ?P1, ?P2, ?P3, ?Hc; try assumption.
  - reflexivity.
  - rewrite E0, shiftr_18; divmod.
  - lia.
Qed.

(** What [encode] returns are octets. *)
Lemma encode_char_octets c b :
  encode_char c = Some b -> Forall (fun o => o < 256) b.
Proof.
  unfold encode_char.
  pose proof (trail_octet c) as (E3 & _ & _).
  pose proof (trail_octet (N.shiftr c 6)) as (E2 & _ & _).
  pose proof (trail_octet (N.shiftr c 12)) as (E1 & _ & _).
  assert (Ht : forall x, 128 + x mod 64 < 256).
  { intros x. pose proof (N.mod_lt x 64). lia. }
  destruct (N.ltb_spec c 0x80); [intros [= <-]; repeat constructor; lia|].
  destruct (N.ltb_spec c 0x800).
  { intros [= <-].
    destruct (lead_octet 0xC0 6 5 0x1F (N.shiftr c 6)) as (E0 & _);
      [reflexivity|reflexivity|rewrite shiftr_6; change (2 ^ 5) with 32; divmod|].
    rewrite E0, E3, shiftr_6. repeat constructor; [divmod|apply Ht]. }
  destruct (is_surrogate c); [discriminate|].
  destruct (N.ltb_spec c 0x10000).
  { intros [= <-].
    destruct (lead_octet 0xE0 14 4 0x0F (N.shiftr c 12)) as (E0 & _);
      [reflexivity|reflexivity|rewrite shiftr_12; change (2 ^ 4) with 16; divmod|].
    rewrite E0, E2, E3, shiftr_12. repeat constructor; [divmod|apply Ht..]. }
  destruct (N.leb_spec c 0x10FFFF); [|discriminate].
  intros [= <-].
  destruct (lead_octet 0xF0 30 3 0x07 (N.shiftr c 18)) as (E0 & _);
    [reflexivity|reflexivity|rewrite shiftr_18; change (2 ^ 3) with 8; divmod|].
  rewrite E0, E1, E2, E3, shiftr_18. repeat constructor; [divmod|apply Ht..].
Qed.

Lemma encode_octets s octets :
  encode s = Some octets -> Forall (fun o => o < 256) octets.
Proof.
  revert octets. induction s as [|c s IH]; intros octets; cbn [encode].
  - intros [= <-]. constructor.
  - destruct (encode_char c) as [b|] eqn:Hc; [|discriminate].
    destruct (encode s) as [bs|]; [|discriminate].
    intros [= <-]. apply Forall_app. eauto using encode_char_octets.
Qed.

(** [encode] accepts exactly the texts made of scalar values. *)
Lemma encode_char_scalar c : scalar c = true <-> is_Some (encode_char c).
Proof.
  unfold scalar, encode_char. destruct (is_surrogate c) eqn:Hs.
  - unfold is_surrogate in Hs. apply andb_true_iff in Hs as [?%N.leb_le ?%N.leb_le].
    by_cases. rewrite andb_false_r. split; [discriminate|intros [? [=]]].
  - rewrite andb_true_r. destruct (N.leb_spec c 0x10FFFF); by_cases;
      split; eauto; try discriminate; intros [? [=]].
Qed.

Lemma encode_encodable s : encodable s = true <-> is_Some (encode s).
Proof.
  induction s as [|c s IH]; cbn [encodable forallb encode]; [split; eauto|].
  fold (encodable s). rewrite andb_true_iff, IH, encode_char_scalar.
  destruct (encode_char c), (encode s); split;
    intros; try split; eauto; destruct_and?; try by apply is_Some_None in H.
  all: try (exfalso; eapply is_Some_None; eassumption).
Qed.

(** The octets [encode] returns are the UTF-8 form of the text: the strict
    decoder reads the text back. *)
Lemma decode_encode s octets : encode s = Some octets -> decode octets = Some s.
Proof.
  revert octets. induction s as [|c s IH]; intros octets; cbn [encode].
  - intros [= <-]. reflexivity.
  - destruct (encode_char c) as [b|] eqn:Hc; [|discriminate].
    destruct (encode s) as [bs|]; [|discriminate].
    intros [= <-]. rewrite (decode_encode_char _ _ _ Hc), (IH bs eq_refl).
    reflexivity.
Qed.

(** An ASCII text is encoded as itself. *)
Lemma encode_ascii s : forallb isascii s = true -> encode s = Some s.
Proof.
  induction s as [|c s IH]; cbn [forallb encode]; [reflexivity|].
  intros [Hc Hs]%andb_true_iff. rewrite (IH Hs).
  unfold encode_char. unfold isascii in Hc. rewrite Hc. reflexivity.
Qed.

Lemma encode_app s t :
  encode (s ++ t)
  = match encode s, encode t with
    | Some a, Some b => Some (a ++ b)
    | _, _ => None
    end.
Proof.
  induction s as [|c s IH]; cbn [app encode].
  - destruct (encode t); reflexivity.
  - rewrite IH. destruct (encode_char c), (encode s), (encode t);
      rewrite <- ?app_assoc; reflexivity.
Qed.
End Utf8Facts.

(** ** Text operations *)

Section StrFacts.

Lemma contains_app c (a b : list N) :
  contains c (a ++ b) = contains c a || contains c b.
Proof. apply existsb_app. Qed.

Lemma contains_cons c x (s : list N) :
  contains c (x :: s) = (c =? x)%N || contains c s.
Proof. reflexivity. Qed.

(** The first occurrence of a character splits the text around it. *)
Lemma contains_first c (s : list N) :
  contains c s = true ->
  exists a b, s = a ++ c :: b /\ contains c a = false.
Proof.
  induction s as [|x s IH]; [discriminate|].
  rewrite contains_cons. destruct (N.eqb_spec c x) as [->|Hne]; cbn [orb].
  - intros _. exists [], s. split; reflexivity.
  - intros (a & b & -> & Ha)%IH. exists (x :: a), b. split; [reflexivity|].
    rewrite contains_cons, Ha. apply N.eqb_neq in Hne. rewrite Hne. reflexivity.
Qed.

Lemma index_first c (a b : list N) :
  contains c a = false -> index c (a ++ c :: b) = Some (length a).
Proof.
  induction a as [|x a IH]; cbn [app index length].
  - intros _. rewrite N.eqb_refl. reflexivity.
  - rewrite contains_cons. intros [Hx Ha]%orb_false_iff.
    rewrite N.eqb_sym, Hx, (IH Ha). reflexivity.
Qed.

Lemma index_none c (s : list N) : contains c s = false -> index c s = None.
Proof.
  induction s as [|x s IH]; [reflexivity|].
  rewrite contains_cons. intros [Hx Hs]%orb_false_iff.
  cbn [index]. rewrite N.eqb_sym, Hx, (IH Hs). reflexivity.
Qed.

Lemma find_first c (a b : list N) :
  contains c a = false -> find c (a ++ c :: b) = Z.of_nat (length a).
Proof.
  intros Ha. unfold find, find_from. change (Z.to_nat 0) with 0%nat.
  rewrite drop_0, (index_first _ _ _ Ha). lia.
Qed.

Lemma find_none c (s : list N) : contains c s = false -> find c s = (-1)%Z.
Proof.
  intros Hs. unfold find, find_from. change (Z.to_nat 0) with 0%nat.
  rewrite drop_0, (index_none _ _ Hs). reflexivity.
Qed.

Lemma bound_nat n (s : list N) : bound (Z.of_nat n) s = n.
Proof.
  unfold bound. destruct (Z.ltb_spec (Z.of_nat n) 0); [lia|]. apply Nat2Z.id.
Qed.

(** [s.split(c, 1)] cuts at the first [c]. *)
Lemma split1_first c (a b : list N) :
  contains c a = false -> split1 c (a ++ c :: b) = (a, b).
Proof.
  intros Ha. unfold split1, upto, from. rewrite (find_first _ _ _ Ha).
  replace (Z.of_nat (length a) + 1)%Z with (Z.of_nat (S (length a))) by lia.
  rewrite !bound_nat. f_equal.
  - rewrite take_app_length. reflexivity.
  - replace (S (length a)) with (length a + 1)%nat by lia.
    rewrite <- drop_drop, drop_app_length. reflexivity.
Qed.

Lemma remove_app c (a b : list N) : remove c (a ++ b) = remove c a ++ remove c b.
Proof. apply filter_app. Qed.

End StrFacts.

(** ** The handler *)

Arguments Str.lit : simpl never.
Arguments config_content : simpl never.

(** Runs the monadic calls of a handler body on the state at hand. *)
Ltac run :=
  unfold send_response, send_response_only, send_header, end_headers,
    wfile_write, environ_get, encode_utf8, get_self, get_world, set_self,
    call, raise, mbind, M_bind, mret, M_ret in *;
  cbn [self world headers_buffer wfile set_headers_buffer set_wfile
       command path request_version version_string date_time_string
       fst snd environ files].

Section HandlerFacts.
Context {FS : Type} `{Url.Validators} `{Library FS}.

(** A [GET] request is dispatched to [WeatherHandler.do_GET]. *)
Lemma handle_GET (w : World FS) (r : Request) :
  req_command r = lit "GET" ->
  handle WeatherHandler w r = do_GET (mkState w (new_handler r)).
Proof.
  intros Hc. unfold handle, handle_method, new_handler. run.
  rewrite Hc. reflexivity.
Qed.

Lemma path_component_Some target p :
  path_component target = Some p ->
  exists parsed, Url.urlparse target = Ok parsed /\ Url.path parsed = p.
Proof.
  unfold path_component. destruct (Url.urlparse target) as [parsed|]; [|discriminate].
  intros [= <-]. eauto.
Qed.

(** What [do_GET] does for the configuration script: the header block,
    unless the request is HTTP/0.9, then the octets of the statement. *)
Lemma do_GET_config (st : State FS) :
  path_component (path (self st)) = Some (lit "/config.js") ->
  let h := self st in
  let key := default (lit "YOUR_RAPIDAPI_KEY_HERE")
               (environ (world st) !! lit "RAPIDAPI_KEY") in
  let head :=
    if writes_headers h then
      [Head (headers_buffer h ++
             [StatusLine 200;
              HeaderLine (lit "Server") (version_string h);
              HeaderLine (lit "Date") (date_time_string h);
              HeaderLine (lit "Content-type") (lit "application/javascript");
              HeaderLine (lit "Cache-Control") (lit "no-cache")])]
    else [] in
  world (fst (do_GET st)) = world st
  /\ headers_buffer (self (fst (do_GET st)))
     = (if writes_headers h then [] else headers_buffer h)
  /\ match Utf8.encode (config_content key) with
     | Some octets =>
         wfile (self (fst (do_GET st))) = wfile h ++ head ++ [Data octets]
         /\ snd (do_GET st) = Ok tt
     | None =>
         wfile (self (fst (do_GET st))) = wfile h ++ head
         /\ snd (do_GET st) = Raise UnicodeEncodeError
     end.
Proof.
  intros (parsed & Hp & Hpath)%path_component_Some.
  destruct st as [w h]. cbn [self world] in *.
  unfold do_GET. run. rewrite Hp, Hpath.
  replace (eqb (lit "/config.js") (lit "/config.js")) with true
    by (symmetry; apply bool_decide_eq_true_2; reflexivity).
  unfold writes_headers.
  destruct (eqb (request_version h) (lit "HTTP/0.9")) eqn:Hv;
    repeat (cbn [negb request_version set_headers_buffer set_wfile self world
                 headers_buffer wfile]; rewrite ?Hv);
    destruct (Utf8.encode _) as [octets|]; run;
    rewrite <- ?app_assoc, ?app_nil_r; cbn [app]; auto.
Qed.


(** A request target that [urlparse] rejects ends [do_GET] with the
    [ValueError], before anything is sent or delegated. *)
Lemma do_GET_unparsed (st : State FS) e :
  Url.urlparse (path (self st)) = Raise e -> do_GET st = (st, Raise e).
Proof.
  intros Hp. destruct st as [w h]. cbn [self] in *.
  unfold do_GET. run. rewrite Hp. reflexivity.
Qed.

End HandlerFacts.

(** ** Routing: what [urlparse] makes of a request target *)

Section Routing.
Context `{Url.Validators}.




Lemma path_component_config : path_component (lit "/config.js") = Some (lit "/config.js").
Proof. reflexivity. Qed.

Lemma path_component_trailing_slash :
  path_component (lit "/config.js/") = Some (lit "/config.js/").
Proof. reflexivity. Qed.

Lemma path_component_upper_case :
  path_component (lit "/CONFIG.JS") = Some (lit "/CONFIG.JS").
Proof. reflexivity. Qed.

End Routing.

(** ** The configuration script *)

Section ConfigScript.
Context {FS : Type} `{Url.Validators} `{Library FS}.

(** Everything a [GET] for the configuration path does, on a new handler
    object: the header block, unless the request is HTTP/0.9, then the
    script if it can be encoded. *)
Lemma config_reply (w : World FS) (r : Request) :
  req_command r = lit "GET" ->
  path_component (req_path r) = Some (lit "/config.js") ->
  let value := default (lit "YOUR_RAPIDAPI_KEY_HERE")
                 (environ w !! lit "RAPIDAPI_KEY") in
  let head :=
    if eqb (req_version r) (lit "HTTP/0.9") then []
    else [Head [StatusLine 200;
                HeaderLine (lit "Server") server_version;
                HeaderLine (lit "Date") (req_date r);
                HeaderLine (lit "Content-type") (lit "application/javascript");
                HeaderLine (lit "Cache-Control") (lit "no-cache")]] in
  world_after WeatherHandler w r = w
  /\ match Utf8.encode (config_content value) with
     | Some octets =>
         reply WeatherHandler w r = head ++ [Data octets]
         /\ outcome WeatherHandler w r = Ok tt
     | None =>
         reply WeatherHandler w r = head
         /\ outcome WeatherHandler w r = Raise UnicodeEncodeError
     end.
Proof.
  intros Hget Hpath. unfold world_after, reply, outcome.
  rewrite (handle_GET _ _ Hget).
  destruct (do_GET_config (mkState w (new_handler r)) Hpath) as (Hw & _ & Hout).
  unfold writes_headers in Hout.
  cbn [self world new_handler headers_buffer wfile version_string
       request_version date_time_string app] in Hw, Hout.
  split; [exact Hw|].
  destruct (eqb (req_version r) (lit "HTTP/0.9")); exact Hout.
Qed.

(** The response a client reads off that reply. *)
Lemma config_response (w : World FS) (r : Request) :
  req_command r = lit "GET" ->
  path_component (req_path r) = Some (lit "/config.js") ->
  let value := default (lit "YOUR_RAPIDAPI_KEY_HERE")
                 (environ w !! lit "RAPIDAPI_KEY") in
  exists resp,
    response_of (reply WeatherHandler w r) = Some resp
    /\ status resp
       = (if eqb (req_version r) (lit "HTTP/0.9") then None else Some 200%Z)
    /\ headers resp
       = (if eqb (req_version r) (lit "HTTP/0.9") then []
          else [(lit "Server", server_version);
                (lit "Date", req_date r);
                (lit "Content-type", lit "application/javascript");
                (lit "Cache-Control", lit "no-cache")])
    /\ body resp = default [] (Utf8.encode (config_content value))
    /\ outcome WeatherHandler w r
       = match Utf8.encode (config_content value) with
         | Some _ => Ok tt
         | None => Raise UnicodeEncodeError
         end.
Proof.
  intros Hget Hpath.
  destruct (config_reply w r Hget Hpath) as (_ & Hout). cbv zeta in *.
  destruct (eqb (req_version r) (lit "HTTP/0.9"));
    destruct (Utf8.encode _); destruct Hout as (-> & ->);
    (eexists; split; [reflexivity|]);
    cbn [status headers body header_fields octets_of app default from_option id];
    rewrite ?app_nil_r; auto.
Qed.

(** The body and the outcome of a [GET] for the configuration path, by what
    [encode] makes of the statement. *)
Lemma config_body (w : World FS) (r : Request) :
  req_command r = lit "GET" ->
  path_component (req_path r) = Some (lit "/config.js") ->
  let value := default (lit "YOUR_RAPIDAPI_KEY_HERE")
                 (environ w !! lit "RAPIDAPI_KEY") in
  exists resp,
    response_of (reply WeatherHandler w r) = Some resp
    /\ body resp = default [] (Utf8.encode (config_content value))
    /\ outcome WeatherHandler w r
       = match Utf8.encode (config_content value) with
         | Some _ => Ok tt
         | None => Raise UnicodeEncodeError
         end.
Proof.
  intros Hget Hpath.
  destruct (config_response w r Hget Hpath) as (resp & Hresp & _ & _ & Hbody & Hout).
  eauto.
Qed.

Lemma default_match {A} (d : A) (o : option A) :
  match o with Some v => v | None => d end = default d o.
Proof. destruct o; reflexivity. Qed.

Lemma encodable_config_content value :
  Utf8.encodable value = true ->
  exists octets, Utf8.encode (config_content value) = Some octets.
Proof.
  intros Hv. apply encode_encodable. unfold config_content, Utf8.encodable.
  rewrite !forallb_app. fold (Utf8.encodable value). rewrite Hv. reflexivity.
Qed.

Lemma encode_config_content value :
  Utf8.encode (config_content value)
  = octets ← Utf8.encode value;
    Some (lit "window.RAPIDAPI_KEY = '" ++ octets ++ lit "';").
Proof.
  unfold config_content. rewrite !encode_app.
  replace (Utf8.encode (lit "window.RAPIDAPI_KEY = '"))
    with (Some (lit "window.RAPIDAPI_KEY = '")) by reflexivity.
  replace (Utf8.encode (lit "';")) with (Some (lit "';")) by reflexivity.
  destruct (Utf8.encode value); reflexivity.
Qed.

Lemma config_content_inj v1 v2 : config_content v1 = config_content v2 -> v1 = v2.
Proof.
  unfold config_content. intros Heq%app_inv_head. apply app_inv_tail in Heq. exact Heq.
Qed.

(** Two statements of which one can be encoded are written as the same
    octets only when they are made from the same key. *)
Lemma config_octets_inj v1 v2 :
  Utf8.encodable v1 = true ->
  default [] (Utf8.encode (config_content v1))
  = default [] (Utf8.encode (config_content v2)) ->
  v1 = v2.
Proof.
  intros (b1 & Hb1)%encodable_config_content. rewrite Hb1.
  cbn [default from_option id].
  destruct (Utf8.encode (config_content v2)) as [b2|] eqn:Hb2;
    cbn [default from_option id]; intros Heq; subst b1.
  - apply config_content_inj. apply decode_encode in Hb1, Hb2. congruence.
  - apply decode_encode in Hb1. discriminate Hb1.
Qed.

(** C1 (amended): for every value of [RAPIDAPI_KEY] that can be encoded
    (no lone surrogate code point), and when it is unset, a [GET] whose path
    is [/config.js] is answered with a body that is exactly the text
    [window.RAPIDAPI_KEY = '<value>';] in UTF-8, [<value>] being the
    variable's value, or [YOUR_RAPIDAPI_KEY_HERE] when it is unset.  The
    status is 200 when the request line names a protocol version; the reply
    to an HTTP/0.9 request is the body alone, without a status line. *)
Theorem config_js_status_and_body (w : World FS) (r : Request) :
  req_command r = lit "GET" ->
  path_component (req_path r) = Some (lit "/config.js") ->
  let value := match environ w !! lit "RAPIDAPI_KEY" with
               | Some v => v
               | None => lit "YOUR_RAPIDAPI_KEY_HERE"
               end in
  Utf8.encodable value = true ->
  exists resp,
    response_of (reply WeatherHandler w r) = Some resp
    /\ status resp
       = (if eqb (req_version r) (lit "HTTP/0.9") then None else Some 200%Z)
    /\ Utf8.encode (lit "window.RAPIDAPI_KEY = '" ++ value ++ lit "';")
       = Some (body resp)
    /\ Utf8.decode (body resp)
       = Some (lit "window.RAPIDAPI_KEY = '" ++ value ++ lit "';")
    /\ outcome WeatherHandler w r = Ok tt.
Proof.
  intros Hget Hpath value Henc. subst value. rewrite default_match in *.
  destruct (config_response w r Hget Hpath)
    as (resp & Hresp & Hstatus & _ & Hbody & Hout).
  cbv zeta in Hbody, Hout.
  destruct (encodable_config_content _ Henc) as (octets & Hoct).
  rewrite Hoct in Hbody, Hout. cbn [default from_option id] in Hbody.
  exists resp. rewrite Hbody.
  split; [exact Hresp|]. split; [exact Hstatus|]. split; [exact Hoct|].
  split; [exact (decode_encode _ _ Hoct)|exact Hout].
Qed.

(** C3 (amended): the script is the key put between the quotes as it is.
    For every key that can be encoded, the body is the octets of
    [window.RAPIDAPI_KEY = '], then the octets of the key, then the octets
    of [';]; read as UTF-8 it is that text with the key between the quotes,
    character for character; and a key of ASCII characters, quotes and
    backslashes included, is in the body octet for octet. *)
Theorem config_js_key_not_escaped (w : World FS) (r : Request) (octets : list N) :
  req_command r = lit "GET" ->
  path_component (req_path r) = Some (lit "/config.js") ->
  let value := match environ w !! lit "RAPIDAPI_KEY" with
               | Some v => v
               | None => lit "YOUR_RAPIDAPI_KEY_HERE"
               end in
  Utf8.encode value = Some octets ->
  body <$> response_of (reply WeatherHandler w r)
  = Some (lit "window.RAPIDAPI_KEY = '" ++ octets ++ lit "';")
  /\ Utf8.decode (lit "window.RAPIDAPI_KEY = '" ++ octets ++ lit "';")
     = Some (lit "window.RAPIDAPI_KEY = '" ++ value ++ lit "';")
  /\ (forallb isascii value = true -> octets = value).
Proof.
  intros Hget Hpath value. subst value. rewrite default_match.
  set (value := default _ _). intros Hoct.
  destruct (config_body w r Hget Hpath) as (resp & Hresp & Hbody & _).
  cbv zeta in Hbody. fold value in Hbody.
  assert (Henc : Utf8.encode (config_content value)
                 = Some (lit "window.RAPIDAPI_KEY = '" ++ octets ++ lit "';"))
    by (rewrite encode_config_content, Hoct; reflexivity).
  rewrite Henc in Hbody. cbn [default from_option id] in Hbody.
  split; [rewrite Hresp; cbn [fmap option_fmap option_map]; congruence|].
  split; [exact (decode_encode _ _ Henc)|].
  intros Hascii. rewrite (encode_ascii _ Hascii) in Hoct. congruence.
Qed.

(** C4 (amended): whatever the environment, the reply to a [GET] for
    [/config.js] whose request line names a protocol version has a
    [Content-Type] header saying [application/javascript] and a
    [Cache-Control] header saying [no-cache]; the reply to an HTTP/0.9
    request has no header. *)
Theorem config_js_headers (w : World FS) (r : Request) :
  req_command r = lit "GET" ->
  path_component (req_path r) = Some (lit "/config.js") ->
  exists resp,
    response_of (reply WeatherHandler w r) = Some resp
    /\ if eqb (req_version r) (lit "HTTP/0.9") then headers resp = []
       else get_header (lit "Content-Type") (headers resp)
            = Some (lit "application/javascript")
            /\ get_header (lit "Cache-Control") (headers resp)
               = Some (lit "no-cache").
Proof.
  intros Hget Hpath.
  destruct (config_response w r Hget Hpath) as (resp & Hresp & _ & Hheaders & _).
  exists resp. split; [exact Hresp|].
  destruct (eqb (req_version r) (lit "HTTP/0.9")); [exact Hheaders|].
  rewrite Hheaders. split; reflexivity.
Qed.

End ConfigScript.

Section ConfigScriptEncoding.
Context {FS : Type} `{Url.Validators} `{Library FS}.

(** Each character of an encoded text has its octets in the result. *)
Lemma encode_elem c (s : list N) octets :
  c ∈ s -> Utf8.encode s = Some octets ->
  exists b l1 l2, Utf8.encode_char c = Some b /\ octets = l1 ++ b ++ l2.
Proof.
  intros (s1 & s2 & ->)%list_elem_of_split. rewrite encode_app. cbn [Utf8.encode].
  destruct (Utf8.encode s1) as [l1|]; [|discriminate].
  destruct (Utf8.encode_char c) as [b|]; [|discriminate].
  destruct (Utf8.encode s2) as [l2|]; [|discriminate].
  intros [= <-]. eauto.
Qed.

Lemma encode_char_multi_octet c b :
  isascii c = false -> Utf8.encode_char c = Some b -> 2 <= length b <= 4.
Proof.
  unfold isascii, Utf8.encode_char. intros ->.
  repeat match goal with
         | |- context [if ?g then _ else _] => destruct g
         end; intros [= <-]; cbn [length]; lia.
Qed.

(** C10 (amended): when the generated statement can be encoded (the key has
    no lone surrogate), the octets written as the body are exactly its UTF-8
    form, and every non-ASCII character of the key is in the body as its
    sequence of two to four octets. *)
Theorem config_js_body_is_utf8 (w : World FS) (r : Request) (octets : list N) :
  req_command r = lit "GET" ->
  path_component (req_path r) = Some (lit "/config.js") ->
  let value := match environ w !! lit "RAPIDAPI_KEY" with
               | Some v => v
               | None => lit "YOUR_RAPIDAPI_KEY_HERE"
               end in
  Utf8.encode (config_content value) = Some octets ->
  body <$> response_of (reply WeatherHandler w r) = Some octets
  /\ Utf8.decode octets = Some (config_content value)
  /\ forall c, c ∈ value -> isascii c = false ->
       exists b l1 l2,
         Utf8.encode_char c = Some b
         /\ 2 <= length b <= 4
         /\ octets = l1 ++ b ++ l2.
Proof.
  intros Hget Hpath value. subst value. rewrite default_match.
  set (value := default _ _). intros Henc.
  destruct (config_body w r Hget Hpath) as (resp & Hresp & Hbody & _).
  cbv zeta in Hbody. fold value in Hbody. rewrite Henc in Hbody.
  cbn [default from_option id] in Hbody.
  split; [rewrite Hresp; cbn [fmap option_fmap option_map]; congruence|].
  split; [apply decode_encode; assumption|].
  intros c Hc Hascii.
  destruct (encode_elem c (config_content value) octets) as (b & l1 & l2 & Hb & ->);
    [unfold config_content; set_solver|assumption|].
  exists b, l1, l2. eauto using encode_char_multi_octet.
Qed.

(** C5 (amended): the key is looked up when the request is handled, and the
    body of the reply to a [GET] for [/config.js] is decided by what the
    lookup gives then (the value of [RAPIDAPI_KEY], or the fallback when it
    is unset): it is the UTF-8 form of [window.RAPIDAPI_KEY = '<key>';], or
    empty when that text cannot be encoded.  Two handlings that look up the
    same key, in whatever process state, for whatever target with that path,
    protocol version and time, give the same body and end the same way; two
    that look up different keys of which one can be encoded give different
    bodies; and after the variable is set to [v], following an earlier
    request, the next body is made from [v]. *)
Theorem config_js_body_follows_environment
  (w1 w2 : World FS) (r1 r2 : Request) :
  req_command r1 = lit "GET" -> req_command r2 = lit "GET" ->
  path_component (req_path r1) = Some (lit "/config.js") ->
  path_component (req_path r2) = Some (lit "/config.js") ->
  let key (w : World FS) := match environ w !! lit "RAPIDAPI_KEY" with
                            | Some v => v
                            | None => lit "YOUR_RAPIDAPI_KEY_HERE"
                            end in
  let statement (v : list N) := lit "window.RAPIDAPI_KEY = '" ++ v ++ lit "';" in
  body <$> response_of (reply WeatherHandler w1 r1)
  = Some (default [] (Utf8.encode (statement (key w1))))
  /\ (key w1 = key w2 ->
      body <$> response_of (reply WeatherHandler w1 r1)
      = body <$> response_of (reply WeatherHandler w2 r2)
      /\ outcome WeatherHandler w1 r1 = outcome WeatherHandler w2 r2)
  /\ (key w1 <> key w2 ->
      Utf8.encodable (key w1) = true \/ Utf8.encodable (key w2) = true ->
      body <$> response_of (reply WeatherHandler w1 r1)
      <> body <$> response_of (reply WeatherHandler w2 r2))
  /\ forall v,
       let w' := world_after WeatherHandler w1 r1 in
       let w'' := mkWorld (<[lit "RAPIDAPI_KEY" := v]> (environ w')) (files w') in
       body <$> response_of (reply WeatherHandler w'' r2)
       = Some (default [] (Utf8.encode (statement v))).
Proof.
  intros Hget1 Hget2 Hpath1 Hpath2 key statement.
  assert (Hbody : forall w r,
             req_command r = lit "GET" ->
             path_component (req_path r) = Some (lit "/config.js") ->
             body <$> response_of (reply WeatherHandler w r)
             = Some (default [] (Utf8.encode (config_content (key w))))
             /\ outcome WeatherHandler w r
                = match Utf8.encode (config_content (key w)) with
                  | Some _ => Ok tt
                  | None => Raise UnicodeEncodeError
                  end).
  { intros w r Hget Hpath. subst key. cbv beta. rewrite default_match.
    destruct (config_body w r Hget Hpath) as (resp & -> & Hb & ->).
    cbn [fmap option_fmap option_map]. rewrite Hb. auto. }
  change statement with config_content.
  destruct (Hbody w1 r1 Hget1 Hpath1) as (Hb1 & Ho1).
  destruct (Hbody w2 r2 Hget2 Hpath2) as (Hb2 & Ho2).
  split; [exact Hb1|]. split; [|split].
  - intros Hkey. rewrite Hb1, Hb2, Ho1, Ho2, Hkey. auto.
  - intros Hne Henc. rewrite Hb1, Hb2. intros [= Heq]. apply Hne.
    destruct Henc as [Henc|Henc].
    + exact (config_octets_inj _ _ Henc Heq).
    + symmetry. exact (config_octets_inj _ _ Henc (eq_sym Heq)).
  - intros v w' w''. destruct (Hbody w'' r2 Hget2 Hpath2) as (-> & _).
    subst key w''. cbv beta. cbn [environ]. rewrite lookup_insert_eq. reflexivity.
Qed.

(** C7: handling a [GET] for [/config.js] leaves the process state as it
    was: the environment and the file system are the same afterwards,
    whether or not the script could be written, so any later request is
    handled as it would have been before. *)
Theorem config_js_leaves_state (w : World FS) (r : Request) :
  req_command r = lit "GET" ->
  path_component (req_path r) = Some (lit "/config.js") ->
  environ (world_after WeatherHandler w r) = environ w
  /\ files (world_after WeatherHandler w r) = files w
  /\ world_after WeatherHandler w r = w
  /\ forall (cls : ClassDict FS) (r' : Request),
       handle cls (world_after WeatherHandler w r) r' = handle cls w r'.
Proof.
  intros Hget Hpath.
  destruct (config_reply w r Hget Hpath) as (-> & _). auto.
Qed.

End ConfigScriptEncoding.

(** ** Everything else goes to the base class *)

Section Delegation.
Context {FS : Type} `{Url.Validators} `{Library FS}.

Lemma do_name_inj (c1 c2 : list N) : lit "do_" ++ c1 = lit "do_" ++ c2 -> c1 = c2.
Proof. apply app_inv_head. Qed.

(** C6: only [do_GET] is overridden.  A request with any other method, for
    [/config.js] or any other target, is handled exactly as the base class
    handles it. *)
Theorem other_methods_use_base_class (w : World FS) (r : Request) :
  req_command r <> lit "GET" ->
  handle WeatherHandler w r = handle SimpleHTTPRequestHandler w r.
Proof.
  intros Hne. unfold handle, handle_method, new_handler. run.
  unfold WeatherHandler, eqb. rewrite bool_decide_eq_false_2; [reflexivity|].
  intros Heq. apply Hne, do_name_inj. exact Heq.
Qed.


End Delegation.

(** ** [main] *)

Section Main.
Context {FS : Type} `{Url.Validators} `{Library FS}.

Lemma running_mon {E : Type -> Type} {R : Type} : monotone1 (@running_ E R).
Proof.
  intros t rec rec' Hrun Hle. unfold running_ in *.
  destruct Hrun; constructor; auto.
Qed.
Hint Resolve running_mon : paco.

Lemma never_returns_observe {E : Type -> Type} {R : Type} (t t' : itree E R) :
  observe t = observe t' -> never_returns t' -> never_returns t.
Proof.
  intros Heq Hrun. punfold Hrun. pfold. unfold running_ in *.
  rewrite Heq. exact Hrun.
Qed.

(** The serving loop goes round again after each request. *)
Lemma serve_forever_unfold {R : Type} (httpd : TCPServer) (w : World FS) :
  serve_forever (R := R) httpd w
  ≈ ITree.bind (handle_request httpd w) (serve_forever httpd).
Proof.
  unfold serve_forever. rewrite unfold_iter, bind_bind.
  apply eqit_bind; [reflexivity|]. intros w'. rewrite bind_ret_l, tau_eutt.
  reflexivity.
Qed.

(** Nothing placed after the serving loop is ever reached. *)
Lemma serve_forever_never_returns {R S : Type} (httpd : TCPServer)
  (k : R -> itree serverE S) (w : World FS) :
  never_returns (ITree.bind (serve_forever httpd w) k).
Proof.
  revert w. pcofix CIH. intros w.
  pfold. unfold running_. cbn. constructor. intros req.
  left. pfold. unfold running_. cbn. constructor. intros [].
  left. pfold. unfold running_. cbn. constructor.
  right. apply CIH.
Qed.

(** C8: [main] makes a [TCPServer] on address [("", 5000)] with
    [WeatherHandler] as its handler class, announces itself, and serves:
    request after request, each handled by [WeatherHandler], without end.
    It does not return and never gets to close the server itself. *)
Theorem main_serves_on_port_5000 (w : World FS) :
  let httpd := mkTCPServer (lit "", 5000%Z) WeatherHandler in
  main w
  ≈ Vis (server_bind httpd) (fun _ =>
    Vis (print (lit "Serving weather app at http://localhost:5000")) (fun _ =>
    ITree.bind (serve_forever httpd w) (fun _ : unit =>
    ITree.trigger (server_close httpd))))
  /\ (forall w' : World FS,
        serve_forever (R := unit) httpd w'
        ≈ ITree.bind (ITree.trigger get_request) (fun r =>
          ITree.bind (ITree.trigger (send (reply WeatherHandler w' r))) (fun _ =>
          serve_forever httpd (world_after WeatherHandler w' r))))
  /\ never_returns (main w).
Proof.
  intros httpd. split; [|split].
  - unfold main. fold httpd. rewrite bind_trigger.
    apply eqit_Vis. intros []. rewrite bind_trigger. reflexivity.
  - intros w'. rewrite serve_forever_unfold. unfold handle_request.
    rewrite bind_bind. apply eqit_bind; [reflexivity|]. intros r.
    rewrite bind_bind. apply eqit_bind; [reflexivity|]. intros [].
    rewrite bind_ret_l. reflexivity.
  - unfold main. fold httpd. pfold. unfold running_. cbn. constructor. intros [].
    left. pfold. unfold running_. cbn. constructor. intros [].
    left.
    eapply never_returns_observe;
      [|exact (serve_forever_never_returns (R := unit) httpd
                 (fun _ => ITree.trigger (server_close httpd)) w)].
    reflexivity.
Qed.

End Main.

(** ** The handler at work on concrete requests *)

Section Examples.
#[local] Existing Instance Static.validators.
#[local] Existing Instance Static.library.

(** Scenario 1 of the specification. *)
Example scenario_key_set :
  response_of (reply WeatherHandler Static.abc123 (Static.request "GET" "/config.js"))
  = Some (mkResponse (Some 200%Z)
            [(lit "Server", lit "SimpleHTTP/0.6");
             (lit "Date", lit "Tue, 03 Nov 2026 09:30:00 GMT");
             (lit "Content-type", lit "application/javascript");
             (lit "Cache-Control", lit "no-cache")]
            (lit "window.RAPIDAPI_KEY = 'abc123';")).
Proof. vm_compute. reflexivity. Qed.

(** Scenario 2. *)
Example scenario_key_unset :
  body <$> response_of (reply WeatherHandler Static.unset (Static.request "GET" "/config.js"))
  = Some (lit "window.RAPIDAPI_KEY = 'YOUR_RAPIDAPI_KEY_HERE';").
Proof. vm_compute. reflexivity. Qed.

(** Scenario 3. *)
Example scenario_index_html :
  (fun resp => (status resp, body resp))
    <$> response_of (reply WeatherHandler Static.unset (Static.request "GET" "/index.html"))
  = Some (Some 200%Z, lit "<html></html>").
Proof. vm_compute. reflexivity. Qed.

(** Scenario 4. *)
Example scenario_not_found :
  status <$> response_of (reply WeatherHandler Static.unset
                            (Static.request "GET" "/does-not-exist.html"))
  = Some (Some 404%Z).
Proof. vm_compute. reflexivity. Qed.

(** Scenario 1 with the request line [GET /config.js]: the script is all
    that is written. *)
Example scenario_simple_request :
  reply WeatherHandler Static.abc123 (Static.simple_request "/config.js")
  = [Data (lit "window.RAPIDAPI_KEY = 'abc123';")].
Proof. vm_compute. reflexivity. Qed.

(** A key between the quotes with a quote and a backslash in it. *)
Example scenario_quote_in_key :
  body <$> response_of (reply WeatherHandler (Static.world (Some (lit "a'b\c")))
                          (Static.request "GET" "/config.js"))
  = Some (lit "window.RAPIDAPI_KEY = 'a'b\c';").
Proof. vm_compute. reflexivity. Qed.

(** C2 fails on a request target that [urlparse] rejects.  The target
    [http://[/] is not [/config.js], yet its [GET] is not handled by the
    base class: [do_GET] ends with the [ValueError] of [urlparse] before it
    gets there, and nothing is sent, where the base class, which does not
    parse the target, replies 404. *)
Lemma unparsable_target_not_delegated :
  let w := Static.unset in
  let r := Static.request "GET" "http://[/" in
  req_command r = lit "GET"
  /\ req_path r <> lit "/config.js"
  /\ Url.urlparse (req_path r) = Raise ValueError
  /\ Static.resolve (files w) (req_path r) = None
  /\ handle WeatherHandler w r = (mkState w (new_handler r), Raise ValueError)
  /\ reply WeatherHandler w r = []
  /\ handle WeatherHandler w r <> super_do_GET (mkState w (new_handler r))
  /\ snd (super_do_GET (mkState w (new_handler r))) = Ok tt
  /\ status <$> response_of (wfile (self (fst (super_do_GET (mkState w (new_handler r))))))
     = Some (Some 404%Z).
Proof.
  cbv zeta. split; [reflexivity|]. split; [discriminate|].
  split; [reflexivity|]. split; [reflexivity|].
  split; [vm_compute; reflexivity|]. split; [vm_compute; reflexivity|].
  split; [|split; vm_compute; reflexivity].
  intros Heq. apply (f_equal snd) in Heq. vm_compute in Heq. discriminate.
Qed.

(** C1 as stated fails in two ways.  On a value with a lone surrogate, which
    is what [os.environ] gives for the undecodable octet [0xFF], the status
    line and the headers have gone out when [encode] raises, and the body
    stays empty.  And to the request line [GET /config.js], which names no
    protocol version, the script is sent without a status line. *)
Lemma config_js_no_body_or_no_status :
  (let w := Static.world (Some [0xDCFF]%N) in
   let r := Static.request "GET" "/config.js" in
   environ w !! lit "RAPIDAPI_KEY" = Some [0xDCFF]%N
   /\ exists resp,
        response_of (reply WeatherHandler w r) = Some resp
        /\ status resp = Some 200%Z
        /\ body resp = []
        /\ Utf8.decode (body resp)
           <> Some (lit "window.RAPIDAPI_KEY = '" ++ [0xDCFF]%N ++ lit "';")
        /\ outcome WeatherHandler w r = Raise UnicodeEncodeError)
  /\ (let w := Static.abc123 in
      let r := Static.simple_request "/config.js" in
      req_command r = lit "GET"
      /\ req_path r = lit "/config.js"
      /\ environ w !! lit "RAPIDAPI_KEY" = Some (lit "abc123")
      /\ reply WeatherHandler w r = [Data (lit "window.RAPIDAPI_KEY = 'abc123';")]
      /\ exists resp,
           response_of (reply WeatherHandler w r) = Some resp
           /\ status resp = None
           /\ status resp <> Some 200%Z).
Proof.
  cbv zeta. split.
  - split; [reflexivity|]. eexists. split; [vm_compute; reflexivity|].
    cbn [status body]. repeat split; try reflexivity. vm_compute. discriminate.
  - do 3 (split; [reflexivity|]). split; [vm_compute; reflexivity|].
    eexists. split; [vm_compute; reflexivity|].
    cbn [status]. split; [reflexivity|discriminate].
Qed.

(** C3 as stated fails on a key with a lone surrogate in it: for the key
    made of a quote and of [U+DCFF] nothing is written as the body, so
    neither character of the key is between the quotes of a statement. *)
Lemma config_js_surrogate_key_not_in_body :
  let key := [0x27; 0xDCFF]%N in
  let w := Static.world (Some key) in
  let r := Static.request "GET" "/config.js" in
  environ w !! lit "RAPIDAPI_KEY" = Some key
  /\ Utf8.encode (lit "window.RAPIDAPI_KEY = '" ++ key ++ lit "';") = None
  /\ body <$> response_of (reply WeatherHandler w r) = Some []
  /\ (forall octets,
        body <$> response_of (reply WeatherHandler w r)
        <> Some (lit "window.RAPIDAPI_KEY = '" ++ octets ++ lit "';"))
  /\ outcome WeatherHandler w r = Raise UnicodeEncodeError.
Proof.
  cbv zeta. split; [reflexivity|]. split; [reflexivity|].
  assert (Hbody : body <$> response_of
                             (reply WeatherHandler (Static.world (Some [0x27; 0xDCFF]%N))
                                (Static.request "GET" "/config.js"))
                  = Some []) by (vm_compute; reflexivity).
  split; [exact Hbody|]. split; [|vm_compute; reflexivity].
  intros octets. rewrite Hbody. discriminate.
Qed.

(** C4 as stated fails on the request line [GET /config.js], which names no
    protocol version: the reply is the script alone, with no header. *)
Lemma config_js_simple_request_no_headers :
  let w := Static.abc123 in
  let r := Static.simple_request "/config.js" in
  req_command r = lit "GET"
  /\ req_path r = lit "/config.js"
  /\ reply WeatherHandler w r = [Data (lit "window.RAPIDAPI_KEY = 'abc123';")]
  /\ exists resp,
       response_of (reply WeatherHandler w r) = Some resp
       /\ headers resp = []
       /\ get_header (lit "Content-Type") (headers resp) = None
       /\ get_header (lit "Cache-Control") (headers resp) = None.
Proof.
  cbv zeta. split; [reflexivity|]. split; [reflexivity|].
  split; [vm_compute; reflexivity|].
  eexists. split; [vm_compute; reflexivity|]. repeat split; reflexivity.
Qed.

(** C5 as stated fails where a change of the variable does not show in the
    next reply.  After a request with the value [U+DCFF] the variable is set
    to [U+DCFE]: neither can be encoded, and the two replies are the same,
    with an empty body.  And a process in which the variable is not set
    answers as one in which it is set to the fallback text. *)
Lemma config_js_change_not_reflected :
  let r := Static.request "GET" "/config.js" in
  (let w := Static.world (Some [0xDCFF]%N) in
   let w' := world_after WeatherHandler w r in
   let w'' := mkWorld (<[lit "RAPIDAPI_KEY" := [0xDCFE]%N]> (environ w')) (files w') in
   environ w !! lit "RAPIDAPI_KEY" = Some [0xDCFF]%N
   /\ environ w'' !! lit "RAPIDAPI_KEY" = Some [0xDCFE]%N
   /\ reply WeatherHandler w r = reply WeatherHandler w'' r
   /\ body <$> response_of (reply WeatherHandler w r) = Some []
   /\ body <$> response_of (reply WeatherHandler w'' r) = Some [])
  /\ (let w := Static.unset in
      let w' := world_after WeatherHandler w r in
      let w'' := mkWorld (<[lit "RAPIDAPI_KEY" := lit "YOUR_RAPIDAPI_KEY_HERE"]>
                            (environ w')) (files w') in
      environ w !! lit "RAPIDAPI_KEY" = None
      /\ environ w'' !! lit "RAPIDAPI_KEY" = Some (lit "YOUR_RAPIDAPI_KEY_HERE")
      /\ reply WeatherHandler w r = reply WeatherHandler w'' r).
Proof.
  cbv zeta. split.
  - split; [reflexivity|]. repeat split; vm_compute; reflexivity.
  - split; [reflexivity|]. repeat split; vm_compute; reflexivity.
Qed.

(** C10 as stated fails on a value that has a non-ASCII character and a
    lone surrogate: [é] has the two-octet form [C3 A9], and the body, which
    is empty, does not contain it. *)
Lemma config_js_surrogate_after_e_acute :
  let w := Static.world (Some [0xE9; 0xDC80]%N) in
  let r := Static.request "GET" "/config.js" in
  environ w !! lit "RAPIDAPI_KEY" = Some [0xE9; 0xDC80]%N
  /\ isascii 0xE9 = false
  /\ Utf8.encode_char 0xE9 = Some [0xC3; 0xA9]%N
  /\ Utf8.encode (config_content [0xE9; 0xDC80]%N) = None
  /\ body <$> response_of (reply WeatherHandler w r) = Some []
  /\ ~ exists l1 l2, [] = l1 ++ [0xC3; 0xA9]%N ++ l2.
Proof.
  cbv zeta. repeat split; try (vm_compute; reflexivity).
  intros (l1 & l2 & Heq). destruct l1; discriminate.
Qed.

(** C1 on scenario 1. *)
Lemma config_js_status_and_body_abc123 :
  let r := Static.request "GET" "/config.js" in
  req_command r = lit "GET"
  /\ path_component (req_path r) = Some (lit "/config.js")
  /\ Utf8.encodable (lit "abc123") = true
  /\ exists resp,
       response_of (reply WeatherHandler Static.abc123 r) = Some resp
       /\ status resp = Some 200%Z
       /\ Utf8.encode (lit "window.RAPIDAPI_KEY = '" ++ lit "abc123" ++ lit "';")
          = Some (body resp)
       /\ Utf8.decode (body resp)
          = Some (lit "window.RAPIDAPI_KEY = '" ++ lit "abc123" ++ lit "';")
       /\ outcome WeatherHandler Static.abc123 r = Ok tt.
Proof.
  cbv zeta. split; [reflexivity|]. split; [reflexivity|]. split; [reflexivity|].
  exact (config_js_status_and_body Static.abc123 (Static.request "GET" "/config.js")
           eq_refl eq_refl eq_refl).
Defined.

(** C3 on a key with a quote and a backslash. *)
Lemma config_js_key_not_escaped_quote :
  let w := Static.world (Some (lit "a'b\c")) in
  let r := Static.request "GET" "/config.js" in
  req_command r = lit "GET"
  /\ path_component (req_path r) = Some (lit "/config.js")
  /\ Utf8.encode (lit "a'b\c") = Some (lit "a'b\c")
  /\ body <$> response_of (reply WeatherHandler w r)
     = Some (lit "window.RAPIDAPI_KEY = '" ++ lit "a'b\c" ++ lit "';")
  /\ Utf8.decode (lit "window.RAPIDAPI_KEY = '" ++ lit "a'b\c" ++ lit "';")
     = Some (lit "window.RAPIDAPI_KEY = '" ++ lit "a'b\c" ++ lit "';").
Proof.
  cbv zeta. split; [reflexivity|]. split; [reflexivity|]. split; [reflexivity|].
  pose proof (config_js_key_not_escaped (Static.world (Some (lit "a'b\c")))
                (Static.request "GET" "/config.js") (lit "a'b\c")
                eq_refl eq_refl eq_refl) as (Hbody & Hdecode & _).
  split; [exact Hbody|exact Hdecode].
Defined.

(** C4 with the variable unset. *)
Lemma config_js_headers_unset :
  let r := Static.request "GET" "/config.js" in
  req_command r = lit "GET"
  /\ path_component (req_path r) = Some (lit "/config.js")
  /\ exists resp,
       response_of (reply WeatherHandler Static.unset r) = Some resp
       /\ get_header (lit "Content-Type") (headers resp)
          = Some (lit "application/javascript")
       /\ get_header (lit "Cache-Control") (headers resp) = Some (lit "no-cache").
Proof.
  cbv zeta. split; [reflexivity|]. split; [reflexivity|].
  exact (config_js_headers Static.unset (Static.request "GET" "/config.js")
           eq_refl eq_refl).
Defined.

(** C5 on two processes that agree on the key and on nothing else, and two
    requests with the configuration path that differ in the target, the
    protocol version and the time. *)
Lemma config_js_body_follows_environment_abc123 :
  let w1 := Static.abc123 in
  let w2 := mkWorld {[ lit "RAPIDAPI_KEY" := lit "abc123"; lit "HOME" := lit "/root" ]}
              (∅ : gmap (list N) (list N)) in
  let r1 := Static.request "GET" "/config.js" in
  let r2 := mkRequest (lit "GET") (lit "/config.js?v=2") (lit "HTTP/1.0")
              (lit "Wed, 04 Nov 2026 10:00:00 GMT") in
  req_command r1 = lit "GET" /\ req_command r2 = lit "GET"
  /\ path_component (req_path r1) = Some (lit "/config.js")
  /\ path_component (req_path r2) = Some (lit "/config.js")
  /\ environ w1 !! lit "RAPIDAPI_KEY" = environ w2 !! lit "RAPIDAPI_KEY"
  /\ body <$> response_of (reply WeatherHandler w1 r1)
     = Some (lit "window.RAPIDAPI_KEY = 'abc123';")
  /\ body <$> response_of (reply WeatherHandler w1 r1)
     = body <$> response_of (reply WeatherHandler w2 r2)
  /\ outcome WeatherHandler w1 r1 = outcome WeatherHandler w2 r2.
Proof.
  cbv zeta. do 5 (split; [reflexivity|]).
  pose proof (config_js_body_follows_environment Static.abc123
                (mkWorld {[ lit "RAPIDAPI_KEY" := lit "abc123"; lit "HOME" := lit "/root" ]}
                   (∅ : gmap (list N) (list N)))
                (Static.request "GET" "/config.js")
                (mkRequest (lit "GET") (lit "/config.js?v=2") (lit "HTTP/1.0")
                   (lit "Wed, 04 Nov 2026 10:00:00 GMT"))
                eq_refl eq_refl eq_refl eq_refl) as (Hbody & Hsame & _).
  split; [exact Hbody|]. exact (Hsame eq_refl).
Defined.

(** C6 on [POST /config.js]. *)
Lemma other_methods_use_base_class_post :
  let r := Static.request "POST" "/config.js" in
  req_command r <> lit "GET"
  /\ handle WeatherHandler Static.abc123 r
     = handle SimpleHTTPRequestHandler Static.abc123 r.
Proof.
  cbv zeta. split; [discriminate|].
  apply (other_methods_use_base_class Static.abc123 (Static.request "POST" "/config.js")).
  discriminate.
Defined.

(** C7 on scenario 1. *)
Lemma config_js_leaves_state_abc123 :
  let r := Static.request "GET" "/config.js" in
  req_command r = lit "GET"
  /\ path_component (req_path r) = Some (lit "/config.js")
  /\ world_after WeatherHandler Static.abc123 r = Static.abc123.
Proof.
  cbv zeta. split; [reflexivity|]. split; [reflexivity|].
  apply (config_js_leaves_state Static.abc123 (Static.request "GET" "/config.js"));
    reflexivity.
Defined.


(** C10 on a key of two non-ASCII characters, [é] and the euro sign. *)
Lemma config_js_body_is_utf8_e_acute_euro :
  let w := Static.world (Some [0xE9; 0x20AC]%N) in
  let r := Static.request "GET" "/config.js" in
  let octets := lit "window.RAPIDAPI_KEY = '" ++ [0xC3; 0xA9; 0xE2; 0x82; 0xAC]%N ++ lit "';" in
  req_command r = lit "GET"
  /\ path_component (req_path r) = Some (lit "/config.js")
  /\ Utf8.encode (config_content [0xE9; 0x20AC]%N) = Some octets
  /\ body <$> response_of (reply WeatherHandler w r) = Some octets
  /\ Utf8.decode octets = Some (config_content [0xE9; 0x20AC]%N).
Proof.
  cbv zeta. split; [reflexivity|]. split; [reflexivity|]. split; [reflexivity|].
  pose proof (config_js_body_is_utf8 (Static.world (Some [0xE9; 0x20AC]%N))
                (Static.request "GET" "/config.js")
                (lit "window.RAPIDAPI_KEY = '" ++ [0xC3; 0xA9; 0xE2; 0x82; 0xAC]%N ++ lit "';")
                eq_refl eq_refl eq_refl) as (Hbody & Hdec & _).
  split; [exact Hbody|exact Hdec].
Defined.

End Examples.

(* ===================================================================== *)
(** * Part III: further properties of the code *)
(* ===================================================================== *)

(** ** More on texts *)

Ltac in_list := repeat first [apply list_elem_of_here | apply list_elem_of_further].
Ltac sub_list :=
  let x := fresh "x" in
  intros x ->%list_elem_of_singleton; in_list.

Section MoreStrFacts.

Lemma contains_rev c (s : list N) : contains c (rev s) = contains c s.
Proof.
  induction s as [|x s IH]; [reflexivity|].
  cbn [rev]. rewrite contains_app, IH, contains_cons. cbn [contains existsb].
  rewrite orb_false_r. apply orb_comm.
Qed.

(** The last occurrence, when it is the first character. *)
Lemma rfind_head c (s : list N) : contains c s = false -> rfind c (c :: s) = 0%Z.
Proof.
  intros Hs. unfold rfind, len. cbn [rev].
  rewrite index_first by (rewrite contains_rev; exact Hs).
  rewrite length_rev. cbn [length]. lia.
Qed.

Lemma remove_absent c (s : list N) : contains c s = false -> remove c s = s.
Proof.
  induction s as [|x s IH]; [reflexivity|].
  rewrite contains_cons. intros [Hx Hs]%orb_false_iff.
  unfold remove in *. rewrite filter_cons_True.
  - rewrite (IH Hs). reflexivity.
  - intros ->. rewrite N.eqb_refl in Hx. discriminate.
Qed.

Lemma contains_take c n (s : list N) : contains c s = false -> contains c (take n s) = false.
Proof.
  intros Hs. rewrite <- (take_drop n s), contains_app in Hs.
  apply orb_false_iff in Hs as [Ht _]. exact Ht.
Qed.

Lemma contains_remove c b (s : list N) :
  contains c s = false -> contains c (remove b s) = false.
Proof.
  induction s as [|x s IH]; [reflexivity|].
  rewrite contains_cons. intros [Hx Hs]%orb_false_iff. unfold remove in *.
  destruct (decide (x ≠ b)).
  - rewrite filter_cons_True by assumption. rewrite contains_cons, Hx. cbn [orb]. auto.
  - rewrite filter_cons_False by assumption. auto.
Qed.

Lemma cut_at_take seps n m (s : list N) :
  cut_at seps m s -> cut_at seps n (take m s) ->
  cut_at seps (n `min` m) s.
Proof.
  unfold cut_at. intros Hm Hn. rewrite length_take in Hn.
  destruct (Nat.le_gt_cases m n) as [Hle|Hlt].
  - rewrite Nat.min_r by assumption. exact Hm.
  - rewrite Nat.min_l by lia. destruct Hn as [Hn|(c & Hc & Hin)]; [left; lia|].
    right. exists c. split; [|assumption].
    rewrite lookup_take_lt in Hc by assumption. exact Hc.
Qed.

Lemma cut_at_weaken seps seps' n (s : list N) :
  seps ⊆ seps' -> cut_at seps n s -> cut_at seps' n s.
Proof.
  intros Hsub [Hn|(c & Hc & Hin)]; [left; assumption|].
  right. exists c. auto.
Qed.

Lemma index_lookup c (s : list N) i : index c s = Some i -> s !! i = Some c.
Proof.
  revert i. induction s as [|x s IH]; intros i; cbn [index]; [discriminate|].
  destruct (N.eqb_spec x c) as [->|_].
  - intros [= <-]. reflexivity.
  - destruct (index c s) as [j|]; [|discriminate]. intros [= <-]. cbn. auto.
Qed.

Lemma index_contains c (s : list N) : contains c s = true -> is_Some (index c s).
Proof.
  intros (a & b & -> & Ha)%contains_first. rewrite index_first by assumption. eauto.
Qed.

(** [s.split(c, 1)[0]] is [s] cut just before a [c]. *)
Lemma split1_cut c (s : list N) :
  contains c s = true ->
  exists n, fst (split1 c s) = take n s /\ cut_at [c] n s.
Proof.
  intros (a & b & -> & Ha)%contains_first. rewrite split1_first by assumption.
  exists (length a). cbn [fst]. split; [rewrite take_app_length; reflexivity|].
  right. exists c. split; [|in_list].
  rewrite lookup_app_r by lia. rewrite Nat.sub_diag. reflexivity.
Qed.

Lemma find_from_lookup c start (s : list N) i :
  (0 <= start)%Z -> find_from c start s = i -> (0 <= i)%Z ->
  s !! Z.to_nat i = Some c.
Proof.
  unfold find_from. intros Hstart Hi Hpos.
  destruct (index c (drop (Z.to_nat start) s)) as [j|] eqn:Hj; [|lia].
  apply index_lookup in Hj. rewrite lookup_drop in Hj.
  subst i. rewrite Z2Nat.inj_add, Nat2Z.id by lia. exact Hj.
Qed.

Lemma rfind_nonneg c (s : list N) : contains c s = true -> (0 <= rfind c s)%Z.
Proof.
  intros Hs. unfold rfind, len. rewrite <- contains_rev in Hs.
  destruct (index_contains _ _ Hs) as [i Hi]. rewrite Hi.
  apply index_lookup, lookup_lt_Some in Hi. rewrite length_rev in Hi. lia.
Qed.

Lemma upto_nonneg i (s : list N) : (0 <= i)%Z -> upto i s = take (Z.to_nat i) s.
Proof.
  intros Hi. unfold upto, bound. destruct (Z.ltb_spec i 0); [lia|reflexivity].
Qed.

End MoreStrFacts.

(** ** More on [urlparse] *)

Section MoreRouting.
Context `{Url.Validators}.

(** [_splitparams(url)[0]] is [url] cut just before a semicolon, or whole. *)
Lemma splitparams_cut (url : list N) :
  contains (chr ";") url = true ->
  exists n, fst (Url.splitparams url) = take n url /\ cut_at [chr ";"] n url.
Proof.
  intros Hsemi. unfold Url.splitparams.
  destruct (contains (chr "/") url) eqn:Hslash.
  - pose proof (rfind_nonneg _ _ Hslash) as Hr.
    destruct (Z.ltb_spec (find_from (chr ";") (rfind (chr "/") url) url) 0) as [Hi|Hi].
    + exists (length url). cbn [fst]. rewrite firstn_all. split; [reflexivity|].
      left. lia.
    + exists (Z.to_nat (find_from (chr ";") (rfind (chr "/") url) url)). cbn [fst].
      rewrite upto_nonneg by assumption. split; [reflexivity|].
      right. exists (chr ";"). split; [|in_list].
      exact (find_from_lookup _ _ _ _ Hr eq_refl Hi).
  - destruct (contains_first _ _ Hsemi) as (a & b & -> & Ha).
    exists (length a). cbn [fst]. rewrite find_first by assumption.
    rewrite upto_nonneg by lia. rewrite Nat2Z.id, take_app_length.
    split; [reflexivity|]. right. exists (chr ";"). split; [|in_list].
    rewrite lookup_app_r by lia. rewrite Nat.sub_diag. reflexivity.
Qed.

Lemma origin_form_inv (target : list N) :
  Url.origin_form target = true ->
  lstrip Url.c0_control_or_space target = target
  /\ fold_left (fun u b => remove b u) Url.unsafe_url_bytes_to_remove target = target
  /\ Url.starts_with_ascii_letter target = false
  /\ eqb (upto 2 target) (lit "//") = false.
Proof.
  unfold Url.origin_form. intros [Hhead Hsafe]%andb_true_iff.
  destruct target as [|c rest]; [discriminate|].
  apply andb_true_iff in Hhead as [->%N.eqb_eq Hsnd].
  split; [reflexivity|]. split; [|split; [reflexivity|]].
  - assert (Hb : forall b, b ∈ Url.unsafe_url_bytes_to_remove ->
                           contains b (chr "/" :: rest) = false).
    { intros b Hb. apply not_true_is_false. intros Hc.
      apply existsb_exists in Hc as (x & Hx & ->%N.eqb_eq).
      rewrite forallb_forall in Hsafe. specialize (Hsafe x Hx).
      apply negb_true_iff, not_true_iff_false in Hsafe. apply Hsafe.
      apply existsb_exists. exists x. split; [|apply N.eqb_refl].
      apply list_elem_of_In. exact Hb. }
    unfold Url.unsafe_url_bytes_to_remove in *. cbn [fold_left].
    rewrite (remove_absent 0x09) by (apply Hb; in_list).
    rewrite (remove_absent 0x0D) by (apply Hb; in_list).
    rewrite (remove_absent 0x0A) by (apply Hb; in_list).
    reflexivity.
  - unfold eqb. apply bool_decide_eq_false_2.
    destruct rest as [|c' rest']; [discriminate|].
    apply negb_true_iff, N.eqb_neq in Hsnd. intros [= Heq]. apply Hsnd. exact Heq.
Qed.

(** A target in origin form always parses: no scheme, no netloc, and a path
    that is the target cut at its end or just before a [#], [?] or [;]. *)
Lemma urlparse_origin_form (target : list N) :
  Url.origin_form target = true ->
  exists parsed n,
    Url.urlparse target = Ok parsed
    /\ Url.scheme parsed = [] /\ Url.netloc parsed = []
    /\ Url.path parsed = take n target
    /\ cut_at [chr "#"; chr "?"; chr ";"] n target.
Proof.
  intros (Hstrip & Hsafe & Hletter & Hslashes)%origin_form_inv.
  unfold Url.urlparse, Url.urlsplit.
  rewrite Hstrip, Hsafe, Hletter, andb_false_r. cbn [andb].
  rewrite Hslashes. cbn [mbind Result_bind].
  assert (H1 : exists n1 fragment,
             (if contains (chr "#") target then split1 (chr "#") target
              else (target, lit "")) = (take n1 target, fragment)
             /\ cut_at [chr "#"; chr "?"; chr ";"] n1 target).
  { destruct (contains (chr "#") target) eqn:Hc.
    - destruct (split1_cut _ _ Hc) as (n & Hn & Hcut).
      destruct (split1 (chr "#") target) as [a b]. cbn [fst] in Hn. subst a.
      exists n, b. split; [reflexivity|].
      eapply cut_at_weaken; [|exact Hcut]. sub_list.
    - exists (length target), (lit ""). rewrite firstn_all.
      split; [reflexivity|]. left. lia. }
  destruct H1 as (n1 & fragment & -> & Hcut1).
  assert (H2 : exists n2 query,
             (if contains (chr "?") (take n1 target)
              then split1 (chr "?") (take n1 target)
              else (take n1 target, lit "")) = (take n2 target, query)
             /\ cut_at [chr "#"; chr "?"; chr ";"] n2 target).
  { destruct (contains (chr "?") (take n1 target)) eqn:Hc.
    - destruct (split1_cut _ _ Hc) as (n & Hn & Hcut).
      destruct (split1 (chr "?") (take n1 target)) as [a b]. cbn [fst] in Hn. subst a.
      exists (n `min` n1), b. rewrite take_take. split; [reflexivity|].
      apply cut_at_take; [assumption|].
      eapply cut_at_weaken; [|exact Hcut]. sub_list.
    - eauto. }
  destruct H2 as (n2 & query & -> & Hcut2).
  change (Url.checknetloc (lit "")) with true. cbv beta iota.
  cbn [mbind Result_bind]. cbv beta iota.
  rewrite (bool_decide_eq_true_2 (lit "" ∈ Url.uses_params))
    by (unfold Url.uses_params; left).
  cbn [andb].
  destruct (contains (chr ";") (take n2 target)) eqn:Hc.
  - destruct (splitparams_cut _ Hc) as (n & Hn & Hcut).
    destruct (Url.splitparams (take n2 target)) as [a b]. cbn [fst] in Hn. subst a.
    eexists _, (n `min` n2). split; [reflexivity|]. cbn [Url.scheme Url.netloc Url.path].
    rewrite take_take. repeat split.
    apply cut_at_take; [assumption|].
    eapply cut_at_weaken; [|exact Hcut]. sub_list.
  - eexists _, n2. split; [reflexivity|]. repeat split. assumption.
Qed.

End MoreRouting.

Section MoreRoutingConfig.
Context `{Url.Validators}.

(** Splitting off a fragment or a query leaves a text that began with [a],
    where the separator does not occur, beginning with [a]. *)
Lemma split1_keeps_prefix c (a p : list N) :
  contains c a = false ->
  exists k x,
    (if contains c (a ++ p) then split1 c (a ++ p) else (a ++ p, lit ""))
    = (a ++ take k p, x).
Proof.
  intros Ha. destruct (contains c (a ++ p)) eqn:Hc.
  - rewrite contains_app, Ha in Hc. cbn [orb] in Hc.
    destruct (contains_first _ _ Hc) as (p1 & p2 & -> & Hp1).
    exists (length p1), p2. rewrite take_app_length, app_assoc.
    apply split1_first. rewrite contains_app, Ha, Hp1. reflexivity.
  - exists (length p), (lit ""). rewrite firstn_all. reflexivity.
Qed.

(** The only exception [urlparse] raises is [ValueError]. *)
Lemma urlparse_raises_ValueError (url : list N) e :
  Url.urlparse url = Raise e -> e = ValueError.
Proof.
  unfold Url.urlparse, Url.urlsplit.
  repeat first
    [ progress cbn [mbind Result_bind]
    | progress cbv beta iota
    | match goal with
      | |- context [split1 ?c ?s] => destruct (split1 c s)
      | |- context [Url.splitnetloc ?u ?n] => destruct (Url.splitnetloc u n)
      | |- context [Url.splitparams ?u] => destruct (Url.splitparams u)
      | |- context [if ?g then _ else _] => destruct g
      end ];
    congruence.
Qed.

(** A fragment is not part of the path. *)
Lemma path_component_config_fragment (f : list N) :
  path_component (lit "/config.js#" ++ f) = Some (lit "/config.js").
Proof.
  unfold path_component, Url.urlparse, Url.urlsplit.
  replace (lstrip Url.c0_control_or_space (lit "/config.js#" ++ f))
    with (lit "/config.js#" ++ f) by reflexivity.
  unfold Url.unsafe_url_bytes_to_remove. cbn [fold_left]. rewrite !remove_app.
  set (f1 := remove _ (remove _ (remove _ f))).
  change (remove 10 (remove 13 (remove 9 (lit "/config.js#"))))
    with (lit "/config.js" ++ [chr "#"]).
  rewrite <- app_assoc. cbn [app].
  set (url := lit "/config.js" ++ chr "#" :: f1).
  replace (Url.starts_with_ascii_letter url) with false by reflexivity.
  rewrite andb_false_r. cbn [andb].
  replace (eqb (upto 2 url) (lit "//")) with false by reflexivity.
  cbn [mbind Result_bind].
  replace (contains (chr "#") url) with true
    by (subst url; rewrite contains_app, contains_cons; reflexivity).
  subst url. rewrite split1_first by reflexivity. reflexivity.
Qed.

Lemma splitparams_config (p : list N) :
  contains (chr "/") p = false ->
  Url.splitparams (lit "/config.js;" ++ p) = (lit "/config.js", p).
Proof.
  intros Hp. unfold Url.splitparams.
  replace (contains (chr "/") (lit "/config.js;" ++ p)) with true
    by (rewrite contains_app; reflexivity).
  assert (Hr : rfind (chr "/") (lit "/config.js;" ++ p) = 0%Z).
  { change (lit "/config.js;" ++ p) with (chr "/" :: (lit "config.js;" ++ p)).
    apply rfind_head. rewrite contains_app, Hp. reflexivity. }
  assert (Hf : find_from (chr ";") 0 (lit "/config.js;" ++ p) = 10%Z).
  { change (find_from (chr ";") 0 (lit "/config.js;" ++ p))
      with (find (chr ";") (lit "/config.js" ++ chr ";" :: p)).
    rewrite find_first by reflexivity. reflexivity. }
  rewrite Hr, Hf. reflexivity.
Qed.

(** Parameters after a semicolon in the last path segment are not part of
    the path. *)
Lemma path_component_config_params (p : list N) :
  contains (chr "/") p = false ->
  path_component (lit "/config.js;" ++ p) = Some (lit "/config.js").
Proof.
  intros Hp. unfold path_component, Url.urlparse, Url.urlsplit.
  replace (lstrip Url.c0_control_or_space (lit "/config.js;" ++ p))
    with (lit "/config.js;" ++ p) by reflexivity.
  unfold Url.unsafe_url_bytes_to_remove. cbn [fold_left]. rewrite !remove_app.
  set (p1 := remove _ (remove _ (remove _ p))).
  assert (Hp1 : contains (chr "/") p1 = false)
    by (subst p1; auto using contains_remove).
  change (remove 10 (remove 13 (remove 9 (lit "/config.js;"))))
    with (lit "/config.js;").
  replace (Url.starts_with_ascii_letter (lit "/config.js;" ++ p1)) with false
    by reflexivity.
  rewrite andb_false_r. cbn [andb].
  replace (eqb (upto 2 (lit "/config.js;" ++ p1)) (lit "//")) with false
    by reflexivity.
  cbn [mbind Result_bind].
  destruct (split1_keeps_prefix (chr "#") (lit "/config.js;") p1 eq_refl)
    as (k1 & fragment & ->).
  destruct (split1_keeps_prefix (chr "?") (lit "/config.js;") (take k1 p1) eq_refl)
    as (k2 & query & ->).
  set (p3 := take k2 (take k1 p1)).
  assert (Hp3 : contains (chr "/") p3 = false)
    by (subst p3; auto using contains_take).
  change (Url.checknetloc (lit "")) with true. cbv beta iota.
  cbn [mbind Result_bind]. cbv beta iota.
  rewrite (bool_decide_eq_true_2 (lit "" ∈ Url.uses_params))
    by (unfold Url.uses_params; left).
  replace (contains (chr ";") (lit "/config.js;" ++ p3)) with true
    by (rewrite contains_app; reflexivity).
  cbn [andb]. rewrite (splitparams_config _ Hp3). reflexivity.
Qed.

End MoreRoutingConfig.

(** ** More on the codec *)

Section MoreUtf8Facts.
Import Utf8.

Lemma encode_char_length c b : encode_char c = Some b -> 1 <= length b <= 4.
Proof.
  unfold encode_char.
  repeat match goal with
         | |- context [if ?g then _ else _] => destruct g
         end; intros [= <-]; cbn [length]; lia.
Qed.

Lemma encode_length (s : list N) octets :
  encode s = Some octets -> length s <= length octets <= 4 * length s.
Proof.
  revert octets. induction s as [|c s IH]; intros octets; cbn [encode].
  - intros [= <-]. cbn. lia.
  - destruct (encode_char c) as [b|] eqn:Hc; [|discriminate].
    destruct (encode s) as [bs|]; [|discriminate].
    intros [= <-]. rewrite length_app. cbn [length].
    pose proof (encode_char_length _ _ Hc). pose proof (IH bs eq_refl). lia.
Qed.

Lemma encode_char_surrogate c : is_surrogate c = true -> encode_char c = None.
Proof.
  unfold encode_char. intros Hs. rewrite Hs.
  unfold is_surrogate in Hs. apply andb_true_iff in Hs as [Hlo%N.leb_le _].
  destruct (N.ltb_spec c 0x80); [lia|]. destruct (N.ltb_spec c 0x800); [lia|].
  reflexivity.
Qed.

Lemma encode_surrogate c (s : list N) :
  c ∈ s -> is_surrogate c = true -> encode s = None.
Proof.
  intros (s1 & s2 & ->)%list_elem_of_split Hs. rewrite encode_app.
  cbn [encode]. rewrite (encode_char_surrogate _ Hs).
  destruct (encode s1); reflexivity.
Qed.

(** X9: [str.encode('utf-8')] and the strict decoder are inverse on what
    [encode] returns: the octets [encode] gives for a text are bytes, between
    one and four for each character, and decode to that text again; so two
    texts with the same octets are the same text. *)
Theorem utf8_encode_round_trip (s t : list N) (octets : list N) :
  encode s = Some octets ->
  decode octets = Some s
  /\ Forall (fun o => (o < 256)%N) octets
  /\ length s <= length octets <= 4 * length s
  /\ (encode t = Some octets -> t = s).
Proof.
  intros Hs. split; [apply decode_encode; assumption|].
  split; [apply (encode_octets s); assumption|].
  split; [apply encode_length; assumption|].
  intros Ht. apply decode_encode in Hs, Ht. congruence.
Qed.

End MoreUtf8Facts.

(** ** More on the handler *)

Section MoreHandlerFacts.
Context {FS : Type} `{Url.Validators} `{Library FS}.

(** Two requests for the configuration path with the same protocol version
    that arrive at the same time are answered alike, whatever else is in the
    target. *)
Lemma config_reply_same (w : World FS) (r1 r2 : Request) :
  req_command r1 = lit "GET" -> req_command r2 = lit "GET" ->
  path_component (req_path r1) = Some (lit "/config.js") ->
  path_component (req_path r2) = Some (lit "/config.js") ->
  req_version r1 = req_version r2 ->
  req_date r1 = req_date r2 ->
  reply WeatherHandler w r1 = reply WeatherHandler w r2
  /\ outcome WeatherHandler w r1 = outcome WeatherHandler w r2.
Proof.
  intros Hg1 Hg2 Hp1 Hp2 Hv Hd.
  destruct (config_reply w r1 Hg1 Hp1) as (_ & H1).
  destruct (config_reply w r2 Hg2 Hp2) as (_ & H2).
  cbv zeta in H1, H2. rewrite Hv, Hd in H1.
  destruct (Utf8.encode _); destruct H1 as (-> & ->), H2 as (-> & ->); auto.
Qed.

(** X1: the reply to a [GET] for [/config.js] whose request line names a
    protocol version has four header fields and no others, in this order:
    [Server], [Date], [Content-type] and [Cache-Control]; in particular no
    [Content-Length] is sent.  The reply to an HTTP/0.9 request has no
    header block.  In both cases nothing is left in the header buffer. *)
Theorem config_js_reply_shape (w : World FS) (r : Request) :
  req_command r = lit "GET" ->
  path_component (req_path r) = Some (lit "/config.js") ->
  (exists resp,
     response_of (reply WeatherHandler w r) = Some resp
     /\ headers resp
        = (if eqb (req_version r) (lit "HTTP/0.9") then []
           else [(lit "Server", server_version);
                 (lit "Date", req_date r);
                 (lit "Content-type", lit "application/javascript");
                 (lit "Cache-Control", lit "no-cache")])
     /\ get_header (lit "Content-Length") (headers resp) = None)
  /\ (req_version r = lit "HTTP/0.9" ->
      forall lines, Head lines ∉ reply WeatherHandler w r)
  /\ headers_buffer (self (fst (handle WeatherHandler w r))) = [].
Proof.
  intros Hget Hpath. split; [|split].
  - destruct (config_response w r Hget Hpath) as (resp & Hresp & _ & Hheaders & _).
    exists resp. split; [exact Hresp|]. split; [exact Hheaders|].
    rewrite Hheaders. destruct (eqb (req_version r) (lit "HTTP/0.9")); reflexivity.
  - intros Hv lines Hin.
    destruct (config_reply w r Hget Hpath) as (_ & Hout). cbv zeta in Hout.
    replace (eqb (req_version r) (lit "HTTP/0.9")) with true in Hout
      by (symmetry; apply bool_decide_eq_true_2; exact Hv).
    destruct (Utf8.encode _); destruct Hout as (Hreply & _);
      rewrite Hreply in Hin; cbn [app] in Hin.
    + apply list_elem_of_singleton in Hin. discriminate Hin.
    + apply elem_of_nil in Hin. exact Hin.
  - rewrite (handle_GET _ _ Hget).
    destruct (do_GET_config (mkState w (new_handler r)) Hpath) as (_ & Hbuf & _).
    rewrite Hbuf. destruct (writes_headers _); reflexivity.
Qed.

(** X2: when the key has a surrogate code point in it, [do_GET] ends with
    [UnicodeEncodeError] after the header block, if the request gets one,
    has gone out, and the body is empty: a client whose request line names a
    protocol version gets status 200 and the two headers, and nothing after
    them; a client with an HTTP/0.9 request gets nothing at all.  The
    process state is as before. *)
Theorem config_js_surrogate_key (w : World FS) (r : Request) (c : N) :
  req_command r = lit "GET" ->
  path_component (req_path r) = Some (lit "/config.js") ->
  let value := match environ w !! lit "RAPIDAPI_KEY" with
               | Some v => v
               | None => lit "YOUR_RAPIDAPI_KEY_HERE"
               end in
  c ∈ value -> Utf8.is_surrogate c = true ->
  outcome WeatherHandler w r = Raise UnicodeEncodeError
  /\ world_after WeatherHandler w r = w
  /\ reply WeatherHandler w r
     = (if eqb (req_version r) (lit "HTTP/0.9") then []
        else [Head [StatusLine 200;
                    HeaderLine (lit "Server") server_version;
                    HeaderLine (lit "Date") (req_date r);
                    HeaderLine (lit "Content-type") (lit "application/javascript");
                    HeaderLine (lit "Cache-Control") (lit "no-cache")]])
  /\ exists resp,
       response_of (reply WeatherHandler w r) = Some resp
       /\ body resp = []
       /\ (req_version r <> lit "HTTP/0.9" ->
           status resp = Some 200%Z
           /\ get_header (lit "Content-Type") (headers resp)
              = Some (lit "application/javascript")
           /\ get_header (lit "Cache-Control") (headers resp)
              = Some (lit "no-cache")).
Proof.
  intros Hget Hpath value. subst value. rewrite default_match.
  set (value := default _ _). intros Hc Hs.
  assert (Henc : Utf8.encode (config_content value) = None)
    by (apply (encode_surrogate c); [unfold config_content; rewrite ?elem_of_app; auto
                                    |exact Hs]).
  destruct (config_reply w r Hget Hpath) as (Hw & Hout). cbv zeta in Hout.
  fold value in Hout. rewrite Henc in Hout. destruct Hout as (Hreply & Hraise).
  destruct (config_response w r Hget Hpath)
    as (resp & Hresp & Hstatus & Hheaders & Hbody & _).
  cbv zeta in Hbody. fold value in Hbody. rewrite Henc in Hbody.
  split; [exact Hraise|]. split; [exact Hw|]. split; [exact Hreply|].
  exists resp. split; [exact Hresp|]. split; [exact Hbody|].
  intros Hv.
  replace (eqb (req_version r) (lit "HTTP/0.9")) with false in Hstatus, Hheaders
    by (symmetry; apply bool_decide_eq_false_2; exact Hv).
  rewrite Hheaders. split; [exact Hstatus|]. split; reflexivity.
Qed.

(** X3: a [GET] whose target [urlparse] does not accept ends with
    [ValueError] and with nothing done: no header line buffered, nothing
    written to the client, the process state as before, the base class not
    run. *)
Theorem unparsed_target_ends_request (w : World FS) (r : Request) :
  req_command r = lit "GET" ->
  path_component (req_path r) = None ->
  handle WeatherHandler w r = (mkState w (new_handler r), Raise ValueError)
  /\ reply WeatherHandler w r = []
  /\ world_after WeatherHandler w r = w.
Proof.
  intros Hget Hpath.
  assert (Hh : handle WeatherHandler w r = (mkState w (new_handler r), Raise ValueError)).
  { rewrite (handle_GET _ _ Hget). apply do_GET_unparsed. cbn [self path new_handler].
    unfold path_component in Hpath.
    destruct (Url.urlparse (req_path r)) as [parsed|e] eqn:Hp; [discriminate|].
    rewrite (urlparse_raises_ValueError _ _ Hp). reflexivity. }
  unfold reply, world_after. rewrite Hh. auto.
Qed.

(** X4: [urlparse] accepts every target in origin form, and the path it
    gives is the target up to its end or up to a [#], [?] or [;]: the target
    is the path followed by nothing or by a text that begins with one of
    the three. *)
Theorem origin_form_target_parses (target : list N) :
  Url.origin_form target = true ->
  exists p rest,
    path_component target = Some p
    /\ target = p ++ rest
    /\ (rest = [] \/ exists c rest', rest = c :: rest' /\ c ∈ [chr "#"; chr "?"; chr ";"]).
Proof.
  intros (parsed & n & Hp & _ & _ & Hpath & Hcut)%urlparse_origin_form.
  exists (take n target), (drop n target). unfold path_component.
  rewrite Hp, Hpath. split; [reflexivity|]. split; [symmetry; apply take_drop|].
  destruct Hcut as [Hn|(c & Hc & Hin)].
  - left. apply drop_ge. exact Hn.
  - right. exists c, (drop (S n) target). split; [|exact Hin].
    apply drop_S. exact Hc.
Qed.


End MoreHandlerFacts.

Section MoreConfigScript.
Context {FS : Type} `{Url.Validators} `{Library FS}.

Lemma encodable_config_content_iff value :
  Utf8.encodable (config_content value) = Utf8.encodable value.
Proof.
  unfold config_content, Utf8.encodable. rewrite !forallb_app.
  change (forallb Utf8.scalar (lit "window.RAPIDAPI_KEY = '")) with true.
  change (forallb Utf8.scalar (lit "';")) with true.
  rewrite andb_true_r. reflexivity.
Qed.

Lemma config_content_length value :
  length (config_content value) = 25 + length value.
Proof.
  unfold config_content. rewrite !length_app.
  change (length (lit "window.RAPIDAPI_KEY = '")) with 23.
  change (length (lit "';")) with 2. lia.
Qed.

(** X5: a fragment, and parameters after a semicolon, are not part of the
    path either: a [GET] for [/config.js#f], whatever [f], and for
    [/config.js;p], for a [p] without a slash, is answered as a [GET] for
    [/config.js] is. *)
Theorem fragment_and_params_ignored (w : World FS) (f p version date : list N) :
  contains (chr "/") p = false ->
  let get target := mkRequest (lit "GET") target version date in
  path_component (lit "/config.js#" ++ f) = Some (lit "/config.js")
  /\ path_component (lit "/config.js;" ++ p) = Some (lit "/config.js")
  /\ reply WeatherHandler w (get (lit "/config.js#" ++ f))
     = reply WeatherHandler w (get (lit "/config.js"))
  /\ reply WeatherHandler w (get (lit "/config.js;" ++ p))
     = reply WeatherHandler w (get (lit "/config.js"))
  /\ outcome WeatherHandler w (get (lit "/config.js#" ++ f))
     = outcome WeatherHandler w (get (lit "/config.js"))
  /\ outcome WeatherHandler w (get (lit "/config.js;" ++ p))
     = outcome WeatherHandler w (get (lit "/config.js")).
Proof.
  intros Hp get.
  pose proof (path_component_config_fragment f) as Hf.
  pose proof (path_component_config_params p Hp) as Hpp.
  destruct (config_reply_same w (get (lit "/config.js#" ++ f)) (get (lit "/config.js"))
              eq_refl eq_refl Hf path_component_config eq_refl eq_refl)
    as (Hr1 & Ho1).
  destruct (config_reply_same w (get (lit "/config.js;" ++ p)) (get (lit "/config.js"))
              eq_refl eq_refl Hpp path_component_config eq_refl eq_refl)
    as (Hr2 & Ho2).
  auto 10.
Qed.

(** X7: the body tells the key.  If a [GET] for [/config.js] with an
    encodable key and another one, in whatever process, are given the same
    body, the two keys are the same. *)
Theorem config_js_body_determines_key (w1 w2 : World FS) (r1 r2 : Request) :
  req_command r1 = lit "GET" -> req_command r2 = lit "GET" ->
  path_component (req_path r1) = Some (lit "/config.js") ->
  path_component (req_path r2) = Some (lit "/config.js") ->
  let value (w : World FS) := match environ w !! lit "RAPIDAPI_KEY" with
                              | Some v => v
                              | None => lit "YOUR_RAPIDAPI_KEY_HERE"
                              end in
  Utf8.encodable (value w1) = true ->
  body <$> response_of (reply WeatherHandler w1 r1)
  = body <$> response_of (reply WeatherHandler w2 r2) ->
  value w1 = value w2.
Proof.
  intros Hg1 Hg2 Hp1 Hp2 value Henc. subst value. cbv beta in *.
  rewrite !default_match in *.
  destruct (config_body w1 r1 Hg1 Hp1) as (resp1 & -> & Hb1 & _).
  destruct (config_body w2 r2 Hg2 Hp2) as (resp2 & -> & Hb2 & _).
  cbv zeta in Hb1, Hb2. cbn [fmap option_fmap option_map]. intros [= Hbody].
  rewrite Hb1, Hb2 in Hbody. clear Hb1 Hb2.
  destruct (encodable_config_content _ Henc) as (b1 & Hb1).
  rewrite Hb1 in Hbody. cbn [default from_option id] in Hbody.
  pose proof (encode_length _ _ Hb1) as Hlen. rewrite config_content_length in Hlen.
  destruct (Utf8.encode (config_content (default _ (environ w2 !! _)))) as [b2|] eqn:Hb2.
  - cbn in Hbody. subst b2. apply config_content_inj.
    apply decode_encode in Hb1, Hb2. congruence.
  - cbn in Hbody. subst b1. cbn in Hlen. lia.
Qed.

(** X8: a [GET] for [/config.js] ends normally exactly when the key can be
    encoded.  Then the body has at least one and at most four octets for each
    character of the key, besides the 25 of the fixed text; otherwise it is
    empty.  What is written are octets (below 256) in both cases. *)
Theorem config_js_success_iff_encodable (w : World FS) (r : Request) :
  req_command r = lit "GET" ->
  path_component (req_path r) = Some (lit "/config.js") ->
  let value := match environ w !! lit "RAPIDAPI_KEY" with
               | Some v => v
               | None => lit "YOUR_RAPIDAPI_KEY_HERE"
               end in
  (outcome WeatherHandler w r = Ok tt <-> Utf8.encodable value = true)
  /\ exists resp,
       response_of (reply WeatherHandler w r) = Some resp
       /\ Forall (fun o => (o < 256)%N) (body resp)
       /\ if Utf8.encodable value
          then 25 + length value <= length (body resp) <= 25 + 4 * length value
          else body resp = [].
Proof.
  intros Hget Hpath value. subst value. rewrite default_match.
  set (value := default _ _).
  destruct (config_body w r Hget Hpath) as (resp & Hresp & Hbody & Hout).
  cbv zeta in Hbody, Hout. fold value in Hbody, Hout.
  rewrite <- (encodable_config_content_iff value).
  destruct (Utf8.encode (config_content value)) as [octets|] eqn:Henc.
  - assert (He : Utf8.encodable (config_content value) = true)
      by (apply encode_encodable; eauto).
    rewrite He, Hout. split; [tauto|]. exists resp. split; [exact Hresp|].
    rewrite Hbody. cbn [default from_option id]. split; [eapply encode_octets; eauto|].
    rewrite encode_config_content in Henc.
    destruct (Utf8.encode value) as [key_octets|] eqn:Hkey; [|discriminate].
    cbn [mbind option_bind] in Henc.
    assert (Hoct : octets = lit "window.RAPIDAPI_KEY = '" ++ key_octets ++ lit "';")
      by congruence.
    pose proof (encode_length _ _ Hkey) as Hlen. rewrite Hoct, !length_app.
    change (length (lit "window.RAPIDAPI_KEY = '")) with 23.
    change (length (lit "';")) with 2. lia.
  - assert (He : Utf8.encodable (config_content value) = false).
    { apply not_true_is_false. intros [? Hs]%encode_encodable. congruence. }
    rewrite He, Hout. split; [split; discriminate|]. exists resp.
    split; [exact Hresp|]. rewrite Hbody. cbn. auto.
Qed.

End MoreConfigScript.

(** ** Targets in absolute form *)

Section AbsoluteForm.
Context `{Url.Validators}.

Lemma forallb_remove (f : N -> bool) c (s : list N) :
  forallb f s = true -> forallb f (remove c s) = true.
Proof.
  induction s as [|x s IH]; [reflexivity|]. cbn [forallb].
  intros [Hx Hs]%andb_true_iff. unfold remove in *.
  destruct (decide (x ≠ c)).
  - rewrite filter_cons_True by assumption. cbn [forallb]. rewrite Hx. auto.
  - rewrite filter_cons_False by assumption. auto.
Qed.

Lemma bound_add n k (s : list N) : bound (Z.of_nat n + Z.of_nat k) s = n + k.
Proof. rewrite <- Nat2Z.inj_add. apply bound_nat. Qed.

(** [_splitnetloc] takes the host off a text that goes on with a path. *)
Lemma splitnetloc_host (host : list N) :
  contains (chr "/") host = false ->
  contains (chr "?") host = false ->
  contains (chr "#") host = false ->
  Url.splitnetloc (lit "//" ++ host ++ lit "/config.js") 2
  = (host, lit "/config.js").
Proof.
  intros Hslash Hquery Hfrag. unfold Url.splitnetloc, find_from.
  change (drop (Z.to_nat 2) (lit "//" ++ host ++ lit "/config.js"))
    with (host ++ chr "/" :: lit "config.js").
  cbn [fold_left].
  rewrite (index_first _ _ _ Hslash).
  rewrite (index_none (chr "?")), (index_none (chr "#"))
    by (rewrite contains_app; rewrite ?Hquery, ?Hfrag; reflexivity).
  assert (Hlen : len (lit "//" ++ host ++ lit "/config.js")
                 = (2 + Z.of_nat (length host) + 10)%Z).
  { unfold len. rewrite !length_app.
    change (length (lit "//")) with 2. change (length (lit "/config.js")) with 10. lia. }
  rewrite Hlen.
  destruct (Z.leb_spec 0 (2 + Z.of_nat (length host))) as [_|]; [|lia].
  change (0 <=? -1)%Z with false. cbv iota.
  rewrite Z.min_r by lia.
  unfold slice, from. change 2%Z with (Z.of_nat 2). rewrite bound_add, bound_nat.
  f_equal.
  - change (lit "//" ++ host ++ lit "/config.js")
      with (chr "/" :: chr "/" :: (host ++ lit "/config.js")).
    cbn [Nat.add take drop]. apply take_app_length.
  - change (lit "//" ++ host ++ lit "/config.js")
      with (chr "/" :: chr "/" :: (host ++ lit "/config.js")).
    cbn [Nat.add drop]. apply drop_app_length.
Qed.

Lemma plain_host_inv (host : list N) :
  plain_host host = true ->
  forallb isascii host = true
  /\ forall c, c ∈ [chr "/"; chr "?"; chr "#"; chr "["; chr "]"] ->
               contains c host = false.
Proof.
  unfold plain_host. rewrite !forallb_forall. intros Hhost. split.
  - intros c Hc. apply Hhost in Hc. apply andb_true_iff in Hc as [Hc _]. exact Hc.
  - intros c Hc. apply not_true_is_false. intros Hin.
    apply existsb_exists in Hin as (x & Hx & ->%N.eqb_eq).
    apply Hhost in Hx. apply andb_true_iff in Hx as [_ Hx].
    apply negb_true_iff, not_true_iff_false in Hx. apply Hx.
    apply existsb_exists. exists x. split; [|apply N.eqb_refl].
    apply list_elem_of_In. exact Hc.
Qed.

(** With a plain host, the absolute form has the path of the origin form. *)
Lemma path_component_absolute (host : list N) :
  plain_host host = true ->
  path_component (lit "http://" ++ host ++ lit "/config.js")
  = Some (lit "/config.js").
Proof.
  intros (Hascii & Hnone)%plain_host_inv.
  unfold path_component, Url.urlparse, Url.urlsplit.
  replace (lstrip Url.c0_control_or_space (lit "http://" ++ host ++ lit "/config.js"))
    with (lit "http://" ++ host ++ lit "/config.js") by reflexivity.
  unfold Url.unsafe_url_bytes_to_remove. cbn [fold_left]. rewrite !remove_app.
  set (host1 := remove _ (remove _ (remove _ host))).
  assert (Hascii1 : forallb isascii host1 = true)
    by (subst host1; auto using forallb_remove).
  assert (Hnone1 : forall c, c ∈ [chr "/"; chr "?"; chr "#"; chr "["; chr "]"] ->
                             contains c host1 = false)
    by (intros c Hc; subst host1; auto using contains_remove).
  change (remove 10 (remove 13 (remove 9 (lit "http://")))) with (lit "http://").
  change (remove 10 (remove 13 (remove 9 (lit "/config.js")))) with (lit "/config.js").
  set (url := lit "http://" ++ host1 ++ lit "/config.js").
  assert (Hfind : find (chr ":") url = 4%Z).
  { subst url.
    change (lit "http://" ++ host1 ++ lit "/config.js")
      with (lit "http" ++ chr ":" :: (lit "//" ++ host1 ++ lit "/config.js")).
    rewrite find_first by reflexivity. reflexivity. }
  rewrite Hfind.
  replace (Url.starts_with_ascii_letter url) with true by reflexivity.
  replace (forallb Url.scheme_char (upto 4 url)) with true by reflexivity.
  change (0 <? 4)%Z with true. cbn [andb].
  replace (from (4 + 1) url) with (lit "//" ++ host1 ++ lit "/config.js") by reflexivity.
  replace (lower (upto 4 url)) with (lit "http") by reflexivity.
  replace (eqb (upto 2 (lit "//" ++ host1 ++ lit "/config.js")) (lit "//")) with true
    by reflexivity.
  rewrite splitnetloc_host by (apply Hnone1; in_list).
  rewrite (Hnone1 (chr "[")), (Hnone1 (chr "]")) by in_list.
  cbn [andb orb negb mbind Result_bind].
  change (contains (chr "#") (lit "/config.js")) with false.
  change (contains (chr "?") (lit "/config.js")) with false. cbv iota beta.
  unfold Url.checknetloc. rewrite Hascii1, orb_true_r.
  reflexivity.
Qed.

End AbsoluteForm.

Section AbsoluteFormRequests.
Context {FS : Type} `{Url.Validators} `{Library FS}.

(** X10: routing does not look at the scheme and the host.  A [GET] whose
    target is the absolute form [http://host/config.js] is answered with the
    script as a [GET] for [/config.js] is, whatever the host (an ASCII text
    without [/], [?], [#] and brackets). *)
Theorem absolute_form_gets_the_script (w : World FS) (host version date : list N) :
  plain_host host = true ->
  let get target := mkRequest (lit "GET") target version date in
  path_component (lit "http://" ++ host ++ lit "/config.js") = Some (lit "/config.js")
  /\ reply WeatherHandler w (get (lit "http://" ++ host ++ lit "/config.js"))
     = reply WeatherHandler w (get (lit "/config.js"))
  /\ outcome WeatherHandler w (get (lit "http://" ++ host ++ lit "/config.js"))
     = outcome WeatherHandler w (get (lit "/config.js")).
Proof.
  intros Hhost get.
  pose proof (path_component_absolute host Hhost) as Hp.
  split; [exact Hp|].
  apply (config_reply_same w (get (lit "http://" ++ host ++ lit "/config.js"))
           (get (lit "/config.js")) eq_refl eq_refl Hp path_component_config
           eq_refl eq_refl).
Qed.

End AbsoluteFormRequests.

(** ** The further properties on concrete requests *)

Section MoreExamples.
#[local] Existing Instance Static.validators.
#[local] Existing Instance Static.library.

(** X1 on scenario 1. *)
Lemma config_js_reply_shape_abc123 :
  let r := Static.request "GET" "/config.js" in
  req_command r = lit "GET"
  /\ path_component (req_path r) = Some (lit "/config.js")
  /\ (exists resp,
        response_of (reply WeatherHandler Static.abc123 r) = Some resp
        /\ headers resp
           = [(lit "Server", lit "SimpleHTTP/0.6");
              (lit "Date", lit "Tue, 03 Nov 2026 09:30:00 GMT");
              (lit "Content-type", lit "application/javascript");
              (lit "Cache-Control", lit "no-cache")]
        /\ get_header (lit "Content-Length") (headers resp) = None)
  /\ headers_buffer (self (fst (handle WeatherHandler Static.abc123 r))) = [].
Proof.
  cbv zeta. split; [reflexivity|]. split; [reflexivity|].
  pose proof (config_js_reply_shape Static.abc123 (Static.request "GET" "/config.js")
                eq_refl eq_refl) as (Hheaders & _ & Hbuffer).
  split; [exact Hheaders|exact Hbuffer].
Defined.

(** X2 on a key that ends in [U+DCFF], which is what [os.environ] makes of
    the octet [0xFF]. *)
Lemma config_js_surrogate_key_dcff :
  let w := Static.world (Some [0x61; 0xDCFF]%N) in
  let r := Static.request "GET" "/config.js" in
  req_command r = lit "GET"
  /\ path_component (req_path r) = Some (lit "/config.js")
  /\ (0xDCFF%N ∈ [0x61; 0xDCFF]%N)
  /\ Utf8.is_surrogate 0xDCFF = true
  /\ req_version r <> lit "HTTP/0.9"
  /\ outcome WeatherHandler w r = Raise UnicodeEncodeError
  /\ world_after WeatherHandler w r = w
  /\ exists resp,
       response_of (reply WeatherHandler w r) = Some resp
       /\ body resp = []
       /\ status resp = Some 200%Z.
Proof.
  cbv zeta. split; [reflexivity|]. split; [reflexivity|].
  split; [in_list|]. split; [reflexivity|]. split; [discriminate|].
  pose proof (config_js_surrogate_key (Static.world (Some [0x61; 0xDCFF]%N))
                (Static.request "GET" "/config.js") 0xDCFF%N eq_refl eq_refl)
    as Hx.
  cbv zeta in Hx.
  destruct (Hx ltac:(in_list) eq_refl) as (Hout & Hw & _ & resp & Hresp & Hbody & Hhead).
  split; [exact Hout|]. split; [exact Hw|].
  exists resp. split; [exact Hresp|]. split; [exact Hbody|].
  apply Hhead. discriminate.
Defined.

(** X3 on a target with an unmatched bracket. *)
Lemma unparsed_target_ends_request_bracket :
  let r := Static.request "GET" "http://[/" in
  req_command r = lit "GET"
  /\ path_component (req_path r) = None
  /\ handle WeatherHandler Static.unset r
     = (mkState Static.unset (new_handler r), Raise ValueError)
  /\ reply WeatherHandler Static.unset r = []
  /\ world_after WeatherHandler Static.unset r = Static.unset.
Proof.
  cbv zeta. split; [reflexivity|]. split; [reflexivity|].
  apply (unparsed_target_ends_request Static.unset (Static.request "GET" "http://[/"));
    reflexivity.
Defined.

(** X4 on a path with parameters, a query and a fragment. *)
Lemma origin_form_target_parses_app_js :
  Url.origin_form (lit "/static/app.js;v=3?x=1#top") = true
  /\ exists p rest,
       path_component (lit "/static/app.js;v=3?x=1#top") = Some p
       /\ lit "/static/app.js;v=3?x=1#top" = p ++ rest
       /\ (rest = []
           \/ exists c rest', rest = c :: rest' /\ c ∈ [chr "#"; chr "?"; chr ";"]).
Proof.
  split; [reflexivity|].
  apply (origin_form_target_parses (lit "/static/app.js;v=3?x=1#top")). reflexivity.
Defined.

(** X5 on [/config.js#top] and [/config.js;v=1]. *)
Lemma fragment_and_params_ignored_top_v1 :
  let get target := mkRequest (lit "GET") target (lit "HTTP/1.1")
                      (lit "Tue, 03 Nov 2026 09:30:00 GMT") in
  contains (chr "/") (lit "v=1") = false
  /\ reply WeatherHandler Static.abc123 (get (lit "/config.js#" ++ lit "top"))
     = reply WeatherHandler Static.abc123 (get (lit "/config.js"))
  /\ reply WeatherHandler Static.abc123 (get (lit "/config.js;" ++ lit "v=1"))
     = reply WeatherHandler Static.abc123 (get (lit "/config.js")).
Proof.
  cbv zeta. split; [reflexivity|].
  pose proof (fragment_and_params_ignored Static.abc123 (lit "top") (lit "v=1")
                (lit "HTTP/1.1") (lit "Tue, 03 Nov 2026 09:30:00 GMT") eq_refl)
    as (_ & _ & Hfragment & Hparams & _).
  split; [exact Hfragment|exact Hparams].
Defined.


(** X7 on two processes with the key [abc123]. *)
Lemma config_js_body_determines_key_abc123 :
  let w1 := Static.abc123 in
  let w2 := mkWorld {[ lit "RAPIDAPI_KEY" := lit "abc123"; lit "HOME" := lit "/root" ]}
              (∅ : gmap (list N) (list N)) in
  let r := Static.request "GET" "/config.js" in
  let value (w : World (gmap (list N) (list N))) :=
    match environ w !! lit "RAPIDAPI_KEY" with
    | Some v => v
    | None => lit "YOUR_RAPIDAPI_KEY_HERE"
    end in
  req_command r = lit "GET"
  /\ path_component (req_path r) = Some (lit "/config.js")
  /\ Utf8.encodable (value w1) = true
  /\ body <$> response_of (reply WeatherHandler w1 r)
     = body <$> response_of (reply WeatherHandler w2 r)
  /\ value w1 = value w2.
Proof.
  cbv zeta. do 4 (split; [reflexivity|]).
  apply (config_js_body_determines_key Static.abc123
           (mkWorld {[ lit "RAPIDAPI_KEY" := lit "abc123"; lit "HOME" := lit "/root" ]}
              (∅ : gmap (list N) (list N)))
           (Static.request "GET" "/config.js") (Static.request "GET" "/config.js"));
    reflexivity.
Defined.

(** X8 on scenario 1. *)
Lemma config_js_success_iff_encodable_abc123 :
  let r := Static.request "GET" "/config.js" in
  req_command r = lit "GET"
  /\ path_component (req_path r) = Some (lit "/config.js")
  /\ (outcome WeatherHandler Static.abc123 r = Ok tt
      <-> Utf8.encodable (lit "abc123") = true).
Proof.
  cbv zeta. split; [reflexivity|]. split; [reflexivity|].
  apply (config_js_success_iff_encodable Static.abc123 (Static.request "GET" "/config.js"));
    reflexivity.
Defined.

(** X9 on [é] and the euro sign. *)
Lemma utf8_encode_round_trip_e_acute_euro :
  Utf8.encode [0xE9; 0x20AC]%N = Some [0xC3; 0xA9; 0xE2; 0x82; 0xAC]%N
  /\ Utf8.decode [0xC3; 0xA9; 0xE2; 0x82; 0xAC]%N = Some [0xE9; 0x20AC]%N
  /\ Forall (fun o => (o < 256)%N) [0xC3; 0xA9; 0xE2; 0x82; 0xAC]%N.
Proof.
  split; [reflexivity|].
  pose proof (utf8_encode_round_trip [0xE9; 0x20AC]%N [] [0xC3; 0xA9; 0xE2; 0x82; 0xAC]%N
                eq_refl) as (Hdecode & Hoctets & _).
  split; [exact Hdecode|exact Hoctets].
Defined.

(** X10 on a host with a port. *)
Lemma absolute_form_gets_the_script_example_com :
  let get target := mkRequest (lit "GET") target (lit "HTTP/1.1")
                      (lit "Tue, 03 Nov 2026 09:30:00 GMT") in
  plain_host (lit "example.com:8080") = true
  /\ reply WeatherHandler Static.abc123
       (get (lit "http://" ++ lit "example.com:8080" ++ lit "/config.js"))
     = reply WeatherHandler Static.abc123 (get (lit "/config.js")).
Proof.
  cbv zeta. split; [reflexivity|].
  apply (absolute_form_gets_the_script Static.abc123 (lit "example.com:8080")
           (lit "HTTP/1.1") (lit "Tue, 03 Nov 2026 09:30:00 GMT")).
  reflexivity.
Defined.

End MoreExamples.
